(** * sql_chat: prompt templates, retrying invoker and response cleanup

    A shallow embedding of [sql_chat.py].  Python text is modelled by
    [string] (sequences of code points below 256), Python integers by [Z],
    dictionaries by [gmap], and the effects of the module (calls of the
    chain, [time.sleep], [logging], the database handle) by a state and
    exception monad over a world that carries the collaborators' state and
    the trace of observable events. *)

From Stdlib Require Import ZArith Ascii String DecimalString Lia.
From stdpp Require Import base option list gmap strings fin_maps.

Local Open Scope string_scope.
Local Open Scope list_scope.

(** ** Python text operations used by the module *)

Module PyStr.

(** [str.isspace] on one code point below 256: the characters removed by
    [str.strip()] called without argument. *)
Definition py_isspace (c : ascii) : bool :=
  let n := N_of_ascii c in
  (((9 <=? n) && (n <=? 13)) || ((28 <=? n) && (n <=? 32))
   || (n =? 133) || (n =? 160))%N.

Fixpoint lstrip (s : string) : string :=
  match s with
  | EmptyString => EmptyString
  | String c s' => if py_isspace c then lstrip s' else s
  end.

Fixpoint rstrip (s : string) : string :=
  match s with
  | EmptyString => EmptyString
  | String c s' =>
      match rstrip s' with
      | EmptyString => if py_isspace c then EmptyString else String c EmptyString
      | r => String c r
      end
  end.

(** [s.strip()] *)
Definition strip (s : string) : string := lstrip (rstrip s).

(** [s[:n]] and [s[n:]] for [n >= 0]. *)
Fixpoint str_take (n : nat) (s : string) : string :=
  match n, s with
  | S n', String c s' => String c (str_take n' s')
  | _, _ => EmptyString
  end.

Fixpoint str_drop (n : nat) (s : string) : string :=
  match n, s with
  | S n', String _ s' => str_drop n' s'
  | _, _ => s
  end.

(** [s.find(sub)]: the lowest index at which [sub] occurs, [None] for -1. *)
Fixpoint find (sub s : string) : option nat :=
  if String.prefix sub s then Some 0
  else match s with
       | EmptyString => None
       | String _ s' => S <$> find sub s'
       end.

(** [sub in s] *)
Definition py_in (sub s : string) : bool :=
  match find sub s with Some _ => true | None => false end.

(** [s.split(sep)] for a non-empty separator, as CPython computes it: find
    the next occurrence, cut the piece before it, continue after it.  Every
    cut consumes at least one character, so [String.length s] rounds are
    enough (lemma [split_fuel_enough]). *)
Fixpoint split_fuel (fuel : nat) (sep s : string) : list string :=
  match fuel with
  | O => [s]
  | S fuel' =>
      match find sep s with
      | None => [s]
      | Some i =>
          str_take i s :: split_fuel fuel' sep (str_drop (i + String.length sep) s)
      end
  end.

Definition py_split (sep s : string) : list string :=
  split_fuel (String.length s) sep s.

(** [sep.join(parts)] *)
Fixpoint py_join (sep : string) (parts : list string) : string :=
  match parts with
  | [] => EmptyString
  | [p] => p
  | p :: rest => p +:+ sep +:+ py_join sep rest
  end.

Definition LF : string := String (ascii_of_N 10) EmptyString.

(** [str(n)] for an integer. *)
Definition str_int (n : Z) : string := NilZero.string_of_int (Z.to_int n).

(** [repr(s)] for text, following CPython's [unicode_repr]: double quotes
    only when the text has a single quote and no double quote; the quote
    and the backslash are escaped, so are tab, newline and carriage
    return, and what is not printable is written as a two-digit hex
    escape. *)
Definition squote : ascii := ascii_of_N 39.
Definition dquote : ascii := ascii_of_N 34.
Definition backslash : ascii := ascii_of_N 92.

Fixpoint has_char (c : ascii) (s : string) : bool :=
  match s with
  | EmptyString => false
  | String d s' => Ascii.eqb c d || has_char c s'
  end.

Definition hex_digit (n : N) : ascii :=
  if (n <? 10)%N then ascii_of_N (48 + n) else ascii_of_N (87 + n).

Definition hex_escape (c : ascii) : string :=
  let n := N_of_ascii c in
  String backslash (String "x" (String (hex_digit (n / 16)) (String (hex_digit (n mod 16)) EmptyString))).

Definition py_isprintable (c : ascii) : bool :=
  let n := N_of_ascii c in
  (((32 <=? n) && (n <? 127)) || ((161 <=? n) && negb (n =? 173)))%N.

Fixpoint repr_body (quote : ascii) (s : string) : string :=
  match s with
  | EmptyString => EmptyString
  | String c s' =>
      let rest := repr_body quote s' in
      if Ascii.eqb c quote || Ascii.eqb c backslash then String backslash (String c rest)
      else if Ascii.eqb c (ascii_of_N 9) then String backslash (String "t" rest)
      else if Ascii.eqb c (ascii_of_N 10) then String backslash (String "n" rest)
      else if Ascii.eqb c (ascii_of_N 13) then String backslash (String "r" rest)
      else if py_isprintable c then String c rest
      else hex_escape c +:+ rest
  end.

Definition py_repr (s : string) : string :=
  let quote := if has_char squote s && negb (has_char dquote s) then dquote else squote in
  String quote (repr_body quote s +:+ String quote EmptyString).

End PyStr.

(** ** Exceptions, results and observable events *)

Module Effects.

(** A Python exception (of a class derived from [Exception], which is what
    [except Exception] catches), observed through its class and the text
    that [str(e)] yields. *)
Record exn := PyExc { exn_class : string; exn_str : string }.

Inductive result (A : Type) : Type :=
| Ok (a : A)
| Raise (e : exn).
Arguments Ok {A} a.
Arguments Raise {A} e.

(** [KeyError(key)], whose text is the [repr] of the key. *)
Definition key_error (key : string) : exn := PyExc "KeyError" (PyStr.py_repr key).

Definition runtime_error (msg : string) : exn := PyExc "RuntimeError" msg.

Definition value_error (msg : string) : exn := PyExc "ValueError" msg.

Definition index_error : exn := PyExc "IndexError" "list index out of range".

(** [l[i]] for [i >= 0]. *)
Definition subscript {A} (l : list A) (i : nat) : result A :=
  match l !! i with
  | Some x => Ok x
  | None => Raise index_error
  end.

Inductive level := INFO | WARNING | ERROR.

(** What a run leaves behind, in order. *)
Inductive event :=
| EvInvoke                              (* prompt_chain.invoke(inputs) *)
| EvSleep (secs : Z)                    (* time.sleep(secs) that slept *)
| EvLog (lvl : level) (msg : string)    (* logging.info / warning / error *)
| EvRun (query : string).               (* db.run(query) *)

(** The world: the state of the external collaborators and the trace. *)
Record World (St : Type) := mkWorld { ext : St; trace : list event }.
Arguments mkWorld {St} ext trace.
Arguments ext {St} w.
Arguments trace {St} w.

(** State and exception monad. *)
Definition M (St A : Type) : Type := World St -> result A * World St.

Definition ret {St A} (a : A) : M St A := fun w => (Ok a, w).

Definition raise {St A} (e : exn) : M St A := fun w => (Raise e, w).

Definition bind {St A B} (m : M St A) (k : A -> M St B) : M St B :=
  fun w =>
    match m w with
    | (Ok a, w') => k a w'
    | (Raise e, w') => (Raise e, w')
    end.

(** The [try] part of [try: ... except Exception as e: ...]: the outcome of
    the body is handed to the code that follows. *)
Definition try_ {St A} (m : M St A) : M St (result A) :=
  fun w => let '(r, w') := m w in (Ok r, w').

Definition lift {St A} (r : result A) : M St A := fun w => (r, w).

Definition emit {St} (ev : event) : M St unit :=
  fun w => (Ok tt, mkWorld (ext w) (trace w ++ [ev])).

(** [time.sleep(secs)]: a negative duration raises [ValueError]. *)
Definition sleep {St} (secs : Z) : M St unit :=
  if (secs <? 0)%Z then raise (value_error "sleep length must be non-negative")
  else emit (EvSleep secs).

Definition logging {St} (lvl : level) (msg : string) : M St unit := emit (EvLog lvl msg).

(** An object with an [invoke] method: it sees the inputs and the
    collaborators' state, returns text or raises. *)
Definition Runnable (St Inp : Type) : Type := Inp -> St -> result string * St.

Definition invoke {St Inp} (chain : Runnable St Inp) (inputs : Inp) : M St string :=
  fun w => let '(r, s) := chain inputs (ext w) in (r, mkWorld s (trace w ++ [EvInvoke])).

(** Observations on a trace. *)
Definition sleeps (t : list event) : list Z :=
  omap (fun ev => match ev with EvSleep secs => Some secs | _ => None end) t.

Definition invocations (t : list event) : nat :=
  length (omap (fun ev => match ev with EvInvoke => Some tt | _ => None end) t).

Definition queries (t : list event) : list string :=
  omap (fun ev => match ev with EvRun q => Some q | _ => None end) t.

End Effects.

Declare Scope py_scope.
Delimit Scope py_scope with py.
Notation "x <- c1 ;; c2" := (Effects.bind c1 (fun x => c2))
  (at level 100, c1 at next level, right associativity) : py_scope.
Notation "c1 ;; c2" := (Effects.bind c1 (fun _ => c2))
  (at level 100, right associativity) : py_scope.

(** ** The retrying invoker *)

Module Invoker.
Import PyStr Effects.
Local Open Scope py_scope.

(** [range(n)] *)
Definition py_range (n : Z) : list Z := Z.of_nat <$> seq 0 (Z.to_nat n).

Definition throttling_marker : string := "ThrottlingException".

Definition retry_warning (wait_time attempt max_retries : Z) : string :=
  "ThrottlingException: Retrying in " +:+ str_int wait_time +:+ "s (attempt "
    +:+ str_int (attempt + 1) +:+ "/" +:+ str_int max_retries +:+ ")".

Definition exhausted : exn :=
  runtime_error "Exceeded maximum retries while invoking Bedrock.".

(** The [for attempt in range(max_retries)] loop, with the attempts still to
    make and the current [wait_time]; falling out of the loop raises. *)
Fixpoint retry_loop {St Inp} (prompt_chain : Runnable St Inp) (inputs : Inp)
    (max_retries : Z) (attempts : list Z) (wait_time : Z) : M St string :=
  match attempts with
  | [] => raise exhausted
  | attempt :: rest =>
      r <- try_ (invoke prompt_chain inputs) ;;
      match r with
      | Ok v => ret v
      | Raise e =>
          if py_in throttling_marker (exn_str e) then
            logging WARNING (retry_warning wait_time attempt max_retries) ;;
            sleep wait_time ;;
            retry_loop prompt_chain inputs max_retries rest (wait_time * 2)
          else
            logging ERROR ("Error invoking Bedrock: " +:+ exn_str e) ;;
            raise e
      end
  end.

Definition invoke_bedrock_with_retry {St Inp} (prompt_chain : Runnable St Inp) (inputs : Inp)
    (max_retries : Z) (initial_wait : Z) : M St string :=
  retry_loop prompt_chain inputs max_retries (py_range max_retries) initial_wait.

(** The collaborators' state after [k] calls of the chain, and the outcome
    of call number [k] (counted from 0), when the calls are made one after
    the other from state [s]. *)
Fixpoint state_after {St Inp} (chain : Runnable St Inp) (inputs : Inp) (k : nat) (s : St) : St :=
  match k with
  | O => s
  | S k' => state_after chain inputs k' (snd (chain inputs s))
  end.

Definition outcome {St Inp} (chain : Runnable St Inp) (inputs : Inp) (k : nat) (s : St) : result string :=
  fst (chain inputs (state_after chain inputs k s)).

(** A throttling-class error: its text contains the marker. *)
Definition throttled (r : result string) : bool :=
  match r with
  | Raise e => py_in throttling_marker (exn_str e)
  | Ok _ => false
  end.

(** The waits [w, 2w, 4w, ...], [n] of them. *)
Definition geometric (w : Z) (n : nat) : list Z :=
  (fun k => 2 ^ Z.of_nat k * w)%Z <$> seq 0 n.

(** The events of [n] throttled attempts, starting at attempt number
    [attempt] with wait [w]. *)
Fixpoint throttled_rounds (max_retries : Z) (attempt : Z) (w : Z) (n : nat) : list event :=
  match n with
  | O => []
  | S n' =>
      EvInvoke :: EvLog WARNING (retry_warning w attempt max_retries) :: EvSleep w
        :: throttled_rounds max_retries (attempt + 1) (w * 2) n'
  end.

End Invoker.

(** ** The module: templates, chain, SQL generation, dispatch *)

Module SqlChat.
Import PyStr Effects Invoker.
Local Open Scope py_scope.

(** The prompt templates, line by line as in the triple-quoted literals. *)
Definition low_template : string :=
  py_join LF
    [ " ";
      "    Based on the table schema below, write a plain SQL query that would answer the user's question.";
      "    {schema}";
      EmptyString;
      "    Question: Given the SQL schema, return the job_ids from the job table where at least 3 of the provided skills {skills} Use the following format:";
      "    Example Query: SELECT j.job_id FROM job j JOIN application a ON j.job_id = a.job_id JOIN jobseeker js ON a.job_seeker_id = js.job_seeker_id WHERE string_to_array(js.skills, ',') && ARRAY['Python', 'Java', 'C', 'JavaScript', 'Spring Boot', 'Flask', 'TensorFlow', 'Bootstrap', 'ReactJS', 'Scikit-learn', 'Pandas', 'NumPy', 'Git', 'GitHub', 'JIRA', 'Photoshop', 'Cloud Technologies', 'Virtual and Augmented Reality', 'Blockchain', 'Prompt Engineering', 'IoT', 'Sports Analytics'];";
      "    Generate a very similar query with the given {skills} replacing the placeholder values. Note that string_to_array(js.skills, ',') part is Must needed because It need to convert to array (without any explanations or formatting make a cumpulsory single line query):";
      "    " ].

Definition medium_template : string :=
  py_join LF
    [ " ";
      "    Based on the table schema below, write a plain SQL query that would answer the user's question.";
      "    {schema}";
      EmptyString;
      "    Question: According to the SQL schema, I need to return the job_ids from the job table where at least 3 of the provided skills {skills} match with the job's skills.";
      EmptyString;
      "    Postgres SQL Query (without any explanations or formatting make a single line query):";
      "    " ].

Definition intermediate_template : string :=
  py_join LF
    [ " ";
      "    Based on the table schema below, write a plain SQL query that would answer the user's question.";
      "    {schema}";
      EmptyString;
      "    Question: Given the SQL schema, return the job_ids from the job table where at least 3 of the provided skills {skills} and the provided experience {experience} match with the job's skills and experience column. Use the following format:";
      "    Example Query: SELECT j.job_id FROM job j JOIN application a ON j.job_id = a.job_id JOIN jobseeker js ON a.job_seeker_id = js.job_seeker_id WHERE string_to_array(js.skills, ',') && ARRAY['Python', 'Java', 'C', 'JavaScript', 'Spring Boot', 'Flask', 'TensorFlow', 'Bootstrap', 'ReactJS', 'Scikit-learn', 'Pandas', 'NumPy', 'Git', 'GitHub', 'JIRA', 'Photoshop', 'Cloud Technologies', 'Virtual and Augmented Reality', 'Blockchain', 'Prompt Engineering', 'IoT', 'Sports Analytics'] AND js.experience LIKE '%2 Year%';";
      "    Generate a very similar query with the given {skills} and {experience} replacing the placeholder values. Note that string_to_array(js.skills, ',') part is Must needed because It need to convert to array (without any explanations or formatting make a cumpulsory single line query):";
      "    " ].

Definition high_template : string :=
  py_join LF
    [ " ";
      "    Based on the table schema below, write a plain SQL query that would answer the user's question.";
      "    {schema}";
      EmptyString;
      "    Question: According to the SQL schema, I need to return the job_ids from the job table where at least 3 of the provided skills {skills} and the provided experience {experience} match with the job's skills and experience column.";
      EmptyString;
      "    SQL Query (without any explanations or formatting make a single line query):";
      "    " ].

Definition templates : gmap string string :=
  <["low" := low_template]>
    (<["medium" := medium_template]>
       (<["intermediate" := intermediate_template]>
          (<["high" := high_template]> ∅))).

(** The closed set of tiers of the spec. *)
Definition tiers : list string := ["low"; "medium"; "intermediate"; "high"].

Definition result_map {A B} (f : A -> B) (r : result A) : result B :=
  match r with
  | Ok a => Ok (f a)
  | Raise e => Raise e
  end.

(** Modelled from the spec: the prompt assembly of [ChatPromptTemplate]
    (langchain_core; only its import and its use are in this repository).
    Every placeholder [{name}] of the template is replaced by the value that
    the inputs give for [name], as literal text; a placeholder without a
    value fails (the spec's MissingExperienceError for [{experience}]), here
    with the [KeyError] that formatting a Python template raises.  [name]
    holds the placeholder being read, if any. *)
Fixpoint fill (vars : gmap string string) (name : option string) (t : string) : result string :=
  match t with
  | EmptyString =>
      match name with
      | None => Ok EmptyString
      | Some _ => Raise (value_error "expected '}' before end of string")
      end
  | String c t' =>
      match name with
      | None =>
          if Ascii.eqb c "{" then fill vars (Some EmptyString) t'
          else result_map (String c) (fill vars None t')
      | Some n =>
          if Ascii.eqb c "}" then
            match vars !! n with
            | Some v => result_map (String.append v) (fill vars None t')
            | None => Raise (key_error n)
            end
          else fill vars (Some (n +:+ String c EmptyString)) t'
      end
  end.

Definition format_prompt (template : string) (vars : gmap string string) : result string :=
  fill vars None template.

(** The marker that the cleanup step looks for. *)
Definition sql_marker : string := "SQL Query:".

(** The cleanup step at the end of [generate_sql]. *)
Definition cleanup (generated_sql : string) : result string :=
  if py_in sql_marker generated_sql then
    result_map strip (subscript (py_split sql_marker generated_sql) 1)
  else Ok generated_sql.

(** Truth value of the optional [experience] argument: [None] and the empty
    text are false. *)
Definition truthy (v : option string) : bool :=
  match v with
  | Some (String _ _) => true
  | _ => false
  end.

(** [inputs = {"skills": skills}], with ["experience"] added when the
    argument is true. *)
Definition build_inputs (skills : string) (experience : option string) : gmap string string :=
  let inputs : gmap string string := {["skills" := skills]} in
  match experience with
  | Some e => if truthy experience then <["experience" := e]> inputs else inputs
  | None => inputs
  end.

Section Collaborators.

(** The database handle [db] and the model [llm] are external; they are
    given by their state and by what their methods return. *)
Context {DB LLM Rows : Type}.

Record Collab := mkCollab { db : DB; llm : LLM }.

Variable get_table_info : DB -> result string * DB.
Variable db_run : string -> DB -> result Rows * DB.
Variable llm_invoke : string -> LLM -> result string * LLM.

(** [RunnablePassthrough.assign(schema=get_schema) | prompt | llm |
    StrOutputParser()] *)
Definition sql_chain (template : string) : Runnable Collab (gmap string string) :=
  fun inputs c =>
    match get_table_info (db c) with
    | (Raise e, d) => (Raise e, mkCollab d (llm c))
    | (Ok schema, d) =>
        match format_prompt template (<["schema" := schema]> inputs) with
        | Raise e => (Raise e, mkCollab d (llm c))
        | Ok prompt =>
            let '(r, l) := llm_invoke prompt (llm c) in (r, mkCollab d l)
        end
    end.

Definition generate_sql (template_name : string) (skills : string)
    (experience : option string) : M Collab string :=
  match templates !! template_name with
  | None => raise (key_error template_name)
  | Some template =>
      let inputs := build_inputs skills experience in
      generated_sql <- invoke_bedrock_with_retry (sql_chain template) inputs 5 1 ;;
      lift (cleanup generated_sql)
  end.

Definition run_query (query : string) : M Collab Rows :=
  fun w =>
    let '(r, d) := db_run query (db (ext w)) in
    (r, mkWorld (mkCollab d (llm (ext w))) (trace w ++ [EvRun query])).

Definition return_low_matched_jobs (skills : string) : M Collab Rows :=
  sql_query <- generate_sql "low" skills None ;;
  logging INFO ("Low matched query: " +:+ sql_query) ;;
  run_query sql_query.

Definition return_medium_matched_jobs (skills : string) : M Collab Rows :=
  sql_query <- generate_sql "medium" skills None ;;
  logging INFO ("Medium matched query: " +:+ sql_query) ;;
  run_query sql_query.

Definition return_intermediate_matched_jobs (skills : string)
    (experience : option string) : M Collab Rows :=
  sql_query <- generate_sql "intermediate" skills experience ;;
  logging INFO ("Intermediate matched query: " +:+ sql_query) ;;
  run_query sql_query.

Definition return_high_matched_jobs (skills : string)
    (experience : option string) : M Collab Rows :=
  sql_query <- generate_sql "high" skills experience ;;
  logging INFO ("High matched query: " +:+ sql_query) ;;
  run_query sql_query.

End Collaborators.

(** *** The cleanup step as the specification words it *)

(** What follows the first occurrence of [sep] in [s]. *)
Definition after_first (sep s : string) : string :=
  match find sep s with
  | Some i => str_drop (i + String.length sep) s
  | None => s
  end.

(** What precedes the first occurrence of [sep] in [s]; all of [s] when
    there is none. *)
Definition up_to (sep s : string) : string :=
  match find sep s with
  | Some i => str_take i s
  | None => s
  end.

(** cleanGeneratedText of the specification. *)
Definition clean_generated_text_spec (raw : string) : string :=
  if py_in sql_marker raw then strip (after_first sql_marker raw) else strip raw.

End SqlChat.

(** ** Collaborators for concrete runs *)

Module Scenarios.
Import Effects.

Definition throttling_error : exn :=
  PyExc "ClientError"
    "An error occurred (ThrottlingException) when calling the InvokeModel operation: Too many requests".

Definition access_denied : exn :=
  PyExc "ClientError"
    "An error occurred (AccessDeniedException) when calling the InvokeModel operation".

(** Chains whose state is the number of calls received so far. *)
Definition flaky (n : nat) (answer : string) : Runnable nat unit :=
  fun _ calls => (if Nat.ltb calls n then Raise throttling_error else Ok answer, S calls).

Definition always_throttled : Runnable nat unit :=
  fun _ calls => (Raise throttling_error, S calls).

Definition denied : Runnable nat unit :=
  fun _ calls => (Raise access_denied, S calls).

(** A database and a model that count their calls and answer with fixed
    values. *)
Definition mock_schema : string := "CREATE TABLE job (job_id INTEGER, skills TEXT)".

Definition mock_rows : string := "[(3,), (7,)]".

Definition mock_get_table_info (d : nat) : result string * nat := (Ok mock_schema, S d).

Definition mock_answer : string := "SQL Query: SELECT j.job_id FROM job j;".

Definition mock_sql : string := "SELECT j.job_id FROM job j;".

Definition mock_db_run (query : string) (d : nat) : result string * nat :=
  (if String.eqb query mock_sql then Ok mock_rows
   else Raise (PyExc "ProgrammingError" "syntax error"),
   S d).

Definition mock_llm (prompt : string) (l : nat) : result string * nat :=
  (Ok mock_answer, S l).

(** The prompt that the low tier assembles for the mock schema. *)
Definition mock_prompt : string :=
  match
    SqlChat.format_prompt SqlChat.low_template
      (<["schema" := mock_schema]> (SqlChat.build_inputs "Python, Java, SQL" None))
  with
  | Ok prompt => prompt
  | Raise _ => EmptyString
  end.

(** Model outputs for the cleanup step. *)
Definition twice_marked : string := "SQL Query: SELECT 1; SQL Query: SELECT 2;".

Definition padded : string := " SELECT 1; ".

End Scenarios.

(** ** Further observations, the four dispatch functions as one family,
       and the script block *)

Module Observe.
Import Effects Invoker SqlChat Scenarios.
Local Open Scope py_scope.


Definition total_sleep (t : list event) : Z := foldr Z.add 0%Z (sleeps t).


(** A database whose [run] is itself throttled, and one whose schema cannot
    be read. *)
Definition throttled_db_run (query : string) (d : nat) : result string * nat :=
  (Raise throttling_error, S d).

Definition unreadable_schema (d : nat) : result string * nat :=
  (Raise (PyExc "OperationalError" "connection refused"), S d).

(** A model that is throttled on its first [n] calls and then answers. *)
Definition flaky_llm (n : nat) (prompt : string) (l : nat) : result string * nat :=
  (if Nat.ltb l n then Raise throttling_error else Ok mock_answer, S l).

(** The four [return_..._matched_jobs] functions, indexed by their tier, so
    that a statement can range over all of them: the key they pass to
    [generate_sql], the experience they pass on, the label of their log. *)
Inductive tier := Low | Medium | Intermediate | High.

Definition tier_key (t : tier) : string :=
  match t with
  | Low => "low"
  | Medium => "medium"
  | Intermediate => "intermediate"
  | High => "high"
  end.

Definition tier_label (t : tier) : string :=
  match t with
  | Low => "Low matched query: "
  | Medium => "Medium matched query: "
  | Intermediate => "Intermediate matched query: "
  | High => "High matched query: "
  end.

Definition tier_experience (t : tier) (experience : option string) : option string :=
  match t with
  | Low | Medium => None
  | Intermediate | High => experience
  end.

Section Collaborators.
Context {DB LLM Rows : Type}.
Variable get_table_info : DB -> result string * DB.
Variable db_run : string -> DB -> result Rows * DB.
Variable llm_invoke : string -> LLM -> result string * LLM.

Definition return_matched_jobs (t : tier) (skills : string) (experience : option string)
    : M Collab Rows :=
  match t with
  | Low => return_low_matched_jobs get_table_info db_run llm_invoke skills
  | Medium => return_medium_matched_jobs get_table_info db_run llm_invoke skills
  | Intermediate =>
      return_intermediate_matched_jobs get_table_info db_run llm_invoke skills experience
  | High => return_high_matched_jobs get_table_info db_run llm_invoke skills experience
  end.

(** [get_schema(_)]: one call of [db.get_table_info()], as it moves the
    database. *)
Definition fetch_schema (d : DB) : DB := snd (get_table_info d).

(** One call of the model on [prompt], as it moves the model. *)
Definition llm_step (prompt : string) (l : LLM) : LLM := snd (llm_invoke prompt l).

(** *** The block under [if __name__ == "__main__"] *)

(** The process that runs the script: the collaborators and what has been
    printed. *)
Record Process := mkProcess { collab : @Collab DB LLM; stdout : list string }.

(** A computation on the collaborators, run inside the process. *)
Definition on_collab {A} (m : M Collab A) : M Process A :=
  fun w =>
    let '(r, w1) := m (mkWorld (collab (ext w)) (trace w)) in
    (r, mkWorld (mkProcess (ext w1) (stdout (ext w))) (trace w1)).

(** [print(line)] *)
Definition print (line : string) : M Process unit :=
  fun w => (Ok tt, mkWorld (mkProcess (collab (ext w)) (stdout (ext w) ++ [line])) (trace w)).

(** [str(rows)] for what [db.run] returns. *)
Variable str_rows : Rows -> string.

Definition main_body : M Process unit :=
  let skills := "Python, Java, SQL" in
  let experience := Some "2 Years" in
  low_matched_jobs <-
    on_collab (return_low_matched_jobs get_table_info db_run llm_invoke skills) ;;
  print ("Low Matched Jobs: " +:+ str_rows low_matched_jobs) ;;
  intermediate_matched_jobs <-
    on_collab (return_intermediate_matched_jobs get_table_info db_run llm_invoke
                 skills experience) ;;
  print ("Intermediate Matched Jobs: " +:+ str_rows intermediate_matched_jobs).

Definition main : M Process unit :=
  r <- try_ main_body ;;
  match r with
  | Ok _ => ret tt
  | Raise e => logging ERROR ("Error during execution: " +:+ exn_str e)
  end.

End Collaborators.

End Observe.

(** ** Facts about the text operations *)

Module PyStrFacts.
Import PyStr.
#[local] Arguments String.append !s1 s2 : simpl nomatch.

Lemma length_append (a b : string) :
  String.length (a +:+ b) = String.length a + String.length b.
Proof. induction a as [|c a IH]; simpl; [reflexivity | now rewrite IH]. Qed.

Lemma append_assoc (a b c : string) : (a +:+ b) +:+ c = a +:+ (b +:+ c).
Proof. induction a as [|x a IH]; simpl; [reflexivity | now rewrite IH]. Qed.

Lemma append_empty_r (a : string) : a +:+ EmptyString = a.
Proof. induction a as [|x a IH]; simpl; [reflexivity | now rewrite IH]. Qed.

Lemma take_drop (n : nat) (s : string) : str_take n s +:+ str_drop n s = s.
Proof.
  revert s; induction n as [|n IH]; intros [|c s]; simpl; try reflexivity.
  now rewrite IH.
Qed.

Lemma length_drop (n : nat) (s : string) :
  String.length (str_drop n s) = String.length s - n.
Proof.
  revert s; induction n as [|n IH]; intros [|c s]; simpl; try reflexivity.
  apply IH.
Qed.

Lemma drop_drop (n m : nat) (s : string) :
  str_drop m (str_drop n s) = str_drop (n + m) s.
Proof.
  revert s; induction n as [|n IH]; intros s; simpl; [reflexivity|].
  destruct s as [|c s]; simpl; [now destruct m | apply IH].
Qed.

Lemma drop_append (a b : string) : str_drop (String.length a) (a +:+ b) = b.
Proof. induction a as [|c a IH]; simpl; [now destruct b | exact IH]. Qed.

Lemma take_append (a b : string) : str_take (String.length a) (a +:+ b) = a.
Proof. induction a as [|c a IH]; simpl; [now destruct b | now rewrite IH]. Qed.

(** [prefix] is [str.startswith]. *)
Lemma prefix_append (sub t : string) : String.prefix sub (sub +:+ t) = true.
Proof.
  induction sub as [|c sub IH]; simpl; [now destruct t|].
  destruct (ascii_dec c c); [exact IH | contradiction].
Qed.

Lemma prefix_split (sub s : string) :
  String.prefix sub s = true -> s = sub +:+ str_drop (String.length sub) s.
Proof.
  revert s; induction sub as [|c sub IH]; intros s H; simpl.
  - now destruct s.
  - destruct s as [|d s]; simpl in H; [discriminate|].
    destruct (ascii_dec c d) as [->|]; [|discriminate].
    simpl. f_equal. now apply IH.
Qed.

Lemma prefix_length (sub s : string) :
  String.prefix sub s = true -> String.length sub <= String.length s.
Proof.
  intros H. rewrite (prefix_split _ _ H), length_append. lia.
Qed.

Lemma find_eq (sub s : string) :
  find sub s =
    if String.prefix sub s then Some 0
    else match s with
         | EmptyString => None
         | String _ s' => S <$> find sub s'
         end.
Proof. destruct s; reflexivity. Qed.

(** The three cases of [find sub s = Some i]. *)
Lemma find_some_inv (sub s : string) (i : nat) :
  find sub s = Some i ->
  (i = 0 /\ String.prefix sub s = true) \/
  (exists c s' k, s = String c s' /\ i = S k /\ String.prefix sub s = false
                  /\ find sub s' = Some k).
Proof.
  rewrite find_eq. destruct (String.prefix sub s) eqn:P.
  - intros [= <-]. now left.
  - destruct s as [|c s']; [discriminate|].
    destruct (find sub s') as [k|] eqn:F; [|discriminate].
    intros [= <-]. right. now exists c, s', k.
Qed.

Lemma find_none_inv (sub s : string) :
  find sub s = None ->
  String.prefix sub s = false /\
  match s with EmptyString => True | String _ s' => find sub s' = None end.
Proof.
  rewrite find_eq. destruct (String.prefix sub s) eqn:P; [discriminate|].
  destruct s as [|c s']; [now split|].
  destruct (find sub s'); [discriminate | now split].
Qed.

(** [find] returns an occurrence ... *)
Lemma find_occurrence (sub s : string) (i : nat) :
  find sub s = Some i ->
  s = str_take i s +:+ sub +:+ str_drop (i + String.length sub) s.
Proof.
  revert i; induction s as [|c s IH]; intros i H;
    apply find_some_inv in H as [[-> P]|(d & s' & k & E & -> & P & F)].
  - now apply prefix_split in P.
  - discriminate.
  - now apply prefix_split in P.
  - injection E as <- <-. simpl. f_equal. now apply IH.
Qed.

(** ... the first one ... *)
Lemma find_first (sub s : string) (i j : nat) :
  find sub s = Some i -> j < i -> String.prefix sub (str_drop j s) = false.
Proof.
  revert i j; induction s as [|c s IH]; intros i j H Hj;
    apply find_some_inv in H as [[-> P]|(d & s' & k & E & -> & P & F)];
    try lia; try discriminate.
  injection E as <- <-.
  destruct j as [|j]; [exact P|]. simpl. apply (IH k); [exact F | lia].
Qed.

(** ... and misses none. *)
Lemma find_none (sub s : string) (j : nat) :
  find sub s = None -> String.prefix sub (str_drop j s) = false.
Proof.
  revert j; induction s as [|c s IH]; intros j H;
    apply find_none_inv in H as [P F].
  - now destruct j.
  - destruct j as [|j]; [exact P | simpl; now apply IH].
Qed.

Lemma find_bound (sub s : string) (i : nat) :
  find sub s = Some i -> i + String.length sub <= String.length s.
Proof.
  revert i; induction s as [|c s IH]; intros i H;
    apply find_some_inv in H as [[-> P]|(d & s' & k & E & -> & P & F)];
    try discriminate.
  - now apply prefix_length in P.
  - now apply prefix_length in P.
  - injection E as <- <-. specialize (IH k F). simpl. lia.
Qed.

(** Text that is put around [sub] contains [sub]. *)
Lemma py_in_append (sub a b : string) : py_in sub (a +:+ sub +:+ b) = true.
Proof.
  unfold py_in. induction a as [|c a IH].
  - change (EmptyString +:+ sub +:+ b) with (sub +:+ b).
    now rewrite find_eq, prefix_append.
  - change (String c a +:+ sub +:+ b) with (String c (a +:+ sub +:+ b)).
    rewrite find_eq.
    destruct (String.prefix sub (String c (a +:+ sub +:+ b))); [reflexivity|].
    destruct (find sub (a +:+ sub +:+ b)); [reflexivity | discriminate].
Qed.

Lemma find_in_empty (sep s : string) :
  0 < String.length sep -> String.length s = 0 -> find sep s = None.
Proof.
  intros Hsep Hs. destruct (find sep s) as [i|] eqn:F; [|reflexivity].
  apply find_bound in F. lia.
Qed.

Lemma split_fuel_agree (sep s : string) (fuel1 fuel2 : nat) :
  0 < String.length sep ->
  String.length s <= fuel1 -> String.length s <= fuel2 ->
  split_fuel fuel1 sep s = split_fuel fuel2 sep s.
Proof.
  intros Hsep. revert s fuel2.
  induction fuel1 as [|fuel1 IH]; intros s fuel2 H1 H2.
  - destruct fuel2 as [|fuel2]; simpl; [reflexivity|].
    now rewrite find_in_empty by lia.
  - destruct fuel2 as [|fuel2]; simpl.
    + now rewrite find_in_empty by lia.
    + destruct (find sep s) as [i|] eqn:F; [|reflexivity].
      apply find_bound in F. f_equal.
      apply IH; rewrite length_drop; lia.
Qed.

(** The rounds of [py_split] are enough: more fuel changes nothing. *)
Lemma split_fuel_enough (sep s : string) (fuel : nat) :
  0 < String.length sep -> String.length s <= fuel ->
  split_fuel fuel sep s = py_split sep s.
Proof.
  intros Hsep Hlen. unfold py_split. now apply split_fuel_agree.
Qed.

(** One step of [py_split]. *)
Lemma py_split_step (sep s : string) :
  0 < String.length sep ->
  py_split sep s =
    match find sep s with
    | None => [s]
    | Some i => str_take i s :: py_split sep (str_drop (i + String.length sep) s)
    end.
Proof.
  intros Hsep. rewrite <- (split_fuel_enough sep s (S (String.length s))) by lia.
  simpl. destruct (find sep s) as [i|] eqn:F; [|reflexivity].
  f_equal. apply split_fuel_enough; [exact Hsep|].
  rewrite length_drop. lia.
Qed.

(** Joining the pieces with the separator gives the text back. *)
Lemma join_split_fuel (sep s : string) (fuel : nat) :
  py_join sep (split_fuel fuel sep s) = s.
Proof.
  revert s; induction fuel as [|fuel IH]; intros s; simpl; [reflexivity|].
  destruct (find sep s) as [i|] eqn:F; [|reflexivity].
  specialize (IH (str_drop (i + String.length sep) s)).
  destruct (split_fuel fuel sep (str_drop (i + String.length sep) s)) eqn:E.
  - destruct fuel; simpl in E; [discriminate|].
    destruct (find sep _); discriminate.
  - change (str_take i s +:+ sep +:+ py_join sep (s0 :: l) = s).
    rewrite IH. symmetry. now apply find_occurrence.
Qed.

Lemma join_split (sep s : string) : py_join sep (py_split sep s) = s.
Proof. apply join_split_fuel. Qed.

(** The first piece of a split is what precedes the first separator. *)
Lemma py_split_head (sep s : string) :
  0 < String.length sep ->
  head (py_split sep s) =
    Some (match find sep s with Some i => str_take i s | None => s end).
Proof.
  intros Hsep. rewrite py_split_step by exact Hsep.
  now destruct (find sep s).
Qed.

End PyStrFacts.

(** ** Facts about the retry loop *)

Module InvokerFacts.
Import PyStr Effects Invoker.

Section Loop.
Context {St Inp : Type}.
Variable chain : Runnable St Inp.
Variable inputs : Inp.

Lemma state_after_succ (k : nat) (s : St) :
  state_after chain inputs (S k) s
  = snd (chain inputs (state_after chain inputs k s)).
Proof.
  revert s; induction k as [|k IH]; intros s; [reflexivity|].
  change (state_after chain inputs (S (S k)) s)
    with (state_after chain inputs (S k) (snd (chain inputs s))).
  now rewrite IH.
Qed.

(** One iteration of the loop, by the outcome of the call. *)
Lemma retry_loop_cons (max_retries attempt wait_time : Z) (rest : list Z) (w : World St) :
  retry_loop chain inputs max_retries (attempt :: rest) wait_time w =
    match chain inputs (ext w) with
    | (Ok v, s) => (Ok v, mkWorld s (trace w ++ [EvInvoke]))
    | (Raise e, s) =>
        if py_in throttling_marker (exn_str e) then
          if (wait_time <? 0)%Z then
            (Raise (value_error "sleep length must be non-negative"),
             mkWorld s (trace w ++
               [EvInvoke; EvLog WARNING (retry_warning wait_time attempt max_retries)]))
          else
            retry_loop chain inputs max_retries rest (wait_time * 2)
              (mkWorld s (trace w ++
                 [EvInvoke; EvLog WARNING (retry_warning wait_time attempt max_retries);
                  EvSleep wait_time]))
        else
          (Raise e,
           mkWorld s (trace w ++
             [EvInvoke; EvLog ERROR ("Error invoking Bedrock: " +:+ exn_str e)]))
    end.
Proof.
  cbn [retry_loop]. unfold bind at 1, try_, invoke.
  destruct (chain inputs (ext w)) as [[v|e] s]; [reflexivity|].
  destruct (py_in throttling_marker (exn_str e)).
  - unfold bind, logging, sleep, emit, raise; cbn [ext trace].
    destruct (wait_time <? 0)%Z; cbn [ext trace];
      rewrite <- ?app_assoc; reflexivity.
  - unfold bind, logging, emit, raise; cbn [ext trace].
    rewrite <- app_assoc. reflexivity.
Qed.

Lemma retry_loop_nil (max_retries wait_time : Z) (w : World St) :
  retry_loop chain inputs max_retries [] wait_time w = (Raise exhausted, w).
Proof. reflexivity. Qed.

(** [n] throttled attempts in a row: the loop performs their calls, warnings
    and sleeps, and goes on with the remaining attempts and [2^n] times the
    wait. *)
Lemma retry_loop_throttled (max_retries : Z) (n m a : nat) (wait_time : Z)
    (s : St) (t : list event) :
  (0 <= wait_time)%Z ->
  (forall k, k < n -> throttled (outcome chain inputs k s) = true) ->
  retry_loop chain inputs max_retries (Z.of_nat <$> seq a (n + m)) wait_time (mkWorld s t)
  = retry_loop chain inputs max_retries (Z.of_nat <$> seq (a + n) m)
      (2 ^ Z.of_nat n * wait_time)
      (mkWorld (state_after chain inputs n s)
               (t ++ throttled_rounds max_retries (Z.of_nat a) wait_time n)).
Proof.
  revert a wait_time s t.
  induction n as [|n IH]; intros a wait_time s t Hw Hthr.
  - cbn [throttled_rounds state_after]. rewrite app_nil_r, Nat.add_0_r.
    f_equal. change (2 ^ Z.of_nat 0)%Z with 1%Z. lia.
  - cbn [Nat.add seq fmap list_fmap]. rewrite retry_loop_cons. cbn [ext trace].
    pose proof (Hthr 0 ltac:(lia)) as H0. unfold outcome in H0.
    cbn [state_after] in H0.
    destruct (chain inputs s) as [[v|e] s'] eqn:E; cbn [fst throttled] in H0;
      [discriminate|].
    rewrite H0.
    destruct (Z.ltb_spec wait_time 0) as [?|_]; [lia|].
    change (list_fmap nat Z Z.of_nat (seq (S a) (n + m)))
      with (Z.of_nat <$> seq (S a) (n + m)).
    rewrite IH.
    + cbn [state_after throttled_rounds]. rewrite E. cbn [snd].
      rewrite <- app_assoc. cbn [app].
      replace (Z.of_nat (S a)) with (Z.of_nat a + 1)%Z by lia.
      replace (S a + n) with (a + S n) by lia.
      replace (2 ^ Z.of_nat n * (wait_time * 2))%Z
        with (2 ^ Z.of_nat (S n) * wait_time)%Z; [reflexivity|].
      rewrite Nat2Z.inj_succ, Z.pow_succ_r by lia. lia.
    + lia.
    + intros k Hk. specialize (Hthr (S k) ltac:(lia)).
      unfold outcome in *. cbn [state_after] in Hthr. now rewrite E in Hthr.
Qed.

(** The first call answers: no retry. *)
Lemma invoke_first_ok (max_retries initial_wait : Z) (v : string) (w : World St) :
  (1 <= max_retries)%Z ->
  fst (chain inputs (ext w)) = Ok v ->
  invoke_bedrock_with_retry chain inputs max_retries initial_wait w
  = (Ok v, mkWorld (snd (chain inputs (ext w))) (trace w ++ [EvInvoke])).
Proof.
  intros Hm Hv. unfold invoke_bedrock_with_retry, py_range.
  replace (Z.to_nat max_retries) with (S (Z.to_nat max_retries - 1)) by lia.
  cbn [seq fmap list_fmap]. rewrite retry_loop_cons.
  destruct (chain inputs (ext w)) as [[v'|e] s]; cbn [fst] in Hv; [|discriminate].
  now injection Hv as ->.
Qed.

(** The first call raises an error that is not a throttling one. *)
Lemma invoke_first_fatal (max_retries initial_wait : Z) (e : exn) (w : World St) :
  (1 <= max_retries)%Z ->
  fst (chain inputs (ext w)) = Raise e ->
  py_in throttling_marker (exn_str e) = false ->
  invoke_bedrock_with_retry chain inputs max_retries initial_wait w
  = (Raise e,
     mkWorld (snd (chain inputs (ext w)))
       (trace w ++ [EvInvoke; EvLog ERROR ("Error invoking Bedrock: " +:+ exn_str e)])).
Proof.
  intros Hm He Hfatal. unfold invoke_bedrock_with_retry, py_range.
  replace (Z.to_nat max_retries) with (S (Z.to_nat max_retries - 1)) by lia.
  cbn [seq fmap list_fmap]. rewrite retry_loop_cons.
  destruct (chain inputs (ext w)) as [[v|e'] s]; cbn [fst] in He; [discriminate|].
  injection He as ->. now rewrite Hfatal.
Qed.

End Loop.

Lemma sleeps_app (t1 t2 : list event) : sleeps (t1 ++ t2) = sleeps t1 ++ sleeps t2.
Proof. apply omap_app. Qed.

Lemma invocations_app (t1 t2 : list event) :
  invocations (t1 ++ t2) = invocations t1 + invocations t2.
Proof. unfold invocations. now rewrite omap_app, length_app. Qed.

Lemma queries_app (t1 t2 : list event) : queries (t1 ++ t2) = queries t1 ++ queries t2.
Proof. apply omap_app. Qed.

Lemma geometric_succ (w : Z) (n : nat) :
  geometric w (S n) = w :: geometric (w * 2) n.
Proof.
  unfold geometric. cbn [seq fmap list_fmap]. f_equal.
  - change (2 ^ Z.of_nat 0)%Z with 1%Z. lia.
  - rewrite <- seq_shift.
    change (list_fmap nat Z ?f (map S ?l)) with (f <$> (S <$> l)).
    rewrite <- list_fmap_compose. apply list_fmap_ext.
    intros _ k _. cbn. rewrite Nat2Z.inj_succ, Z.pow_succ_r by lia. lia.
Qed.

Lemma sleeps_throttled_rounds (max_retries attempt w : Z) (n : nat) :
  sleeps (throttled_rounds max_retries attempt w n) = geometric w n.
Proof.
  revert attempt w; induction n as [|n IH]; intros attempt w; [reflexivity|].
  rewrite geometric_succ. cbn [throttled_rounds].
  change (sleeps (EvInvoke :: EvLog WARNING ?m :: EvSleep w :: ?r)) with (w :: sleeps r).
  now rewrite IH.
Qed.

Lemma invocations_throttled_rounds (max_retries attempt w : Z) (n : nat) :
  invocations (throttled_rounds max_retries attempt w n) = n.
Proof.
  revert attempt w; induction n as [|n IH]; intros attempt w; [reflexivity|].
  cbn [throttled_rounds].
  change (invocations (EvInvoke :: EvLog WARNING ?m :: EvSleep w :: ?r))
    with (S (invocations r)).
  now rewrite IH.
Qed.

Lemma py_range_nat (n : nat) : py_range (Z.of_nat n) = Z.of_nat <$> seq 0 n.
Proof. unfold py_range. now rewrite Nat2Z.id. Qed.

End InvokerFacts.

(** ** Templates, cleanup and the dispatch functions *)

Module SqlChatFacts.
Import PyStr Effects Invoker SqlChat PyStrFacts InvokerFacts.

Lemma templates_low : templates !! "low" = Some low_template.
Proof. reflexivity. Qed.

Lemma templates_medium : templates !! "medium" = Some medium_template.
Proof. reflexivity. Qed.

Lemma templates_intermediate : templates !! "intermediate" = Some intermediate_template.
Proof. reflexivity. Qed.

Lemma templates_high : templates !! "high" = Some high_template.
Proof. reflexivity. Qed.

(** The keys of the registry are the four tiers and nothing else. *)
Lemma templates_lookup_none (name : string) :
  name ∉ tiers -> templates !! name = None.
Proof.
  intros H. unfold templates.
  rewrite !lookup_insert_ne, lookup_empty; [reflexivity|..];
    intros <-; apply H; unfold tiers; set_solver.
Qed.

Lemma templates_lookup_some (name : string) :
  name ∈ tiers -> is_Some (templates !! name).
Proof.
  unfold tiers. rewrite !elem_of_cons, elem_of_nil.
  intros [->|[->|[->|[->|[]]]]]; eexists; reflexivity.
Qed.

(** The cleanup step never fails: under its guard the split has a second
    piece. *)
Lemma cleanup_marked (raw : string) :
  py_in sql_marker raw = true ->
  cleanup raw = Ok (strip (up_to sql_marker (after_first sql_marker raw))).
Proof.
  intros Hin. unfold cleanup. rewrite Hin.
  rewrite py_split_step by (cbn; lia).
  unfold py_in in Hin. unfold after_first.
  destruct (find sql_marker raw) as [i|]; [|discriminate].
  unfold subscript.
  change ((str_take i raw :: ?l) !! 1) with (l !! 0).
  rewrite <- head_lookup, py_split_head by (cbn; lia).
  reflexivity.
Qed.

Lemma cleanup_unmarked (raw : string) :
  py_in sql_marker raw = false -> cleanup raw = Ok raw.
Proof. intros Hin. unfold cleanup. now rewrite Hin. Qed.

Lemma cleanup_total (raw : string) : exists sql, cleanup raw = Ok sql.
Proof.
  destruct (py_in sql_marker raw) eqn:Hin.
  - eexists. now apply cleanup_marked.
  - eexists. now apply cleanup_unmarked.
Qed.

(** Placeholders of each template against the inputs of a call without
    experience. *)
Lemma format_low (schema skills : string) :
  format_prompt low_template (<["schema" := schema]> (build_inputs skills None))
  = Ok (up_to "{schema}" low_template +:+ schema
        +:+ up_to "{skills}" (after_first "{schema}" low_template) +:+ skills
        +:+ up_to "{skills}" (after_first "{skills}" low_template) +:+ skills
        +:+ after_first "{skills}" (after_first "{skills}" low_template)).
Proof. vm_compute. reflexivity. Qed.

Lemma format_intermediate_no_experience (schema skills : string) :
  format_prompt intermediate_template (<["schema" := schema]> (build_inputs skills None))
  = Raise (key_error "experience").
Proof. vm_compute. reflexivity. Qed.

Lemma format_high_no_experience (schema skills : string) :
  format_prompt high_template (<["schema" := schema]> (build_inputs skills None))
  = Raise (key_error "experience").
Proof. vm_compute. reflexivity. Qed.

Section Collaborators.
Context {DB LLM Rows : Type}.
Variable get_table_info : DB -> result string * DB.
Variable db_run : string -> DB -> result Rows * DB.
Variable llm_invoke : string -> LLM -> result string * LLM.

(** [generate_sql] when the first call of the chain answers. *)
Lemma generate_sql_ok (template_name template skills : string) (experience : option string)
    (raw sql : string) (c : Collab) (w : World Collab) :
  templates !! template_name = Some template ->
  sql_chain get_table_info llm_invoke template (build_inputs skills experience) (ext w)
    = (Ok raw, c) ->
  cleanup raw = Ok sql ->
  generate_sql get_table_info llm_invoke template_name skills experience w
  = (Ok sql, mkWorld c (trace w ++ [EvInvoke])).
Proof.
  intros Ht Hc Hclean. unfold generate_sql. rewrite Ht. unfold bind.
  rewrite (invoke_first_ok _ _ 5 1 raw) by (lia || now rewrite Hc).
  rewrite Hc. cbn [snd]. unfold lift. now rewrite Hclean.
Qed.

(** [generate_sql] when the first call of the chain raises a fatal error. *)
Lemma generate_sql_fatal (template_name template skills : string)
    (experience : option string) (e : exn) (c : Collab) (w : World Collab) :
  templates !! template_name = Some template ->
  sql_chain get_table_info llm_invoke template (build_inputs skills experience) (ext w)
    = (Raise e, c) ->
  py_in throttling_marker (exn_str e) = false ->
  generate_sql get_table_info llm_invoke template_name skills experience w
  = (Raise e,
     mkWorld c (trace w ++ [EvInvoke; EvLog ERROR ("Error invoking Bedrock: " +:+ exn_str e)])).
Proof.
  intros Ht Hc Hfatal. unfold generate_sql. rewrite Ht. unfold bind.
  rewrite (invoke_first_fatal _ _ 5 1 e) by (lia || assumption || now rewrite Hc).
  now rewrite Hc.
Qed.

End Collaborators.

End SqlChatFacts.

(** ** The retrying invoker: recovery, exhaustion, fatal errors *)

Module InvokerSpec.
Import PyStr Effects Invoker InvokerFacts Scenarios.



(** A negative wait is refused by [time.sleep]: the first throttled attempt
    then ends the call with [ValueError], whatever the chain would answer
    next. *)
Lemma negative_wait_raises {St Inp} (chain : Runnable St Inp) (inputs : Inp)
    (max_retries initial_wait : Z) (w : World St) :
  (1 <= max_retries)%Z ->
  (initial_wait < 0)%Z ->
  throttled (outcome chain inputs 0 (ext w)) = true ->
  fst (invoke_bedrock_with_retry chain inputs max_retries initial_wait w)
  = Raise (value_error "sleep length must be non-negative").
Proof.
  intros Hm Hw Hthr. unfold invoke_bedrock_with_retry, py_range.
  replace (Z.to_nat max_retries) with (S (Z.to_nat max_retries - 1)) by lia.
  cbn [seq fmap list_fmap]. rewrite retry_loop_cons.
  unfold outcome in Hthr. cbn [state_after] in Hthr.
  destruct (chain inputs (ext w)) as [[v|e] s]; cbn [fst throttled] in Hthr;
    [discriminate|].
  rewrite Hthr. destruct (Z.ltb_spec initial_wait 0); [reflexivity | lia].
Qed.

(** C2, as the code runs.  A chain that is throttled on every call, with
    the default budget of 5 attempts and 1 second: the chain is called 5
    times and the call ends with the RuntimeError of exhaustion, but the
    sleeps are 1, 2, 4, 8 and then 16 seconds: the loop also sleeps after
    the fifth and last attempt, before it gives up. *)
Theorem always_throttled_sleeps_after_last_attempt {St Inp} (chain : Runnable St Inp)
    (inputs : Inp) (w : World St) :
  (forall k, k < 5 -> throttled (outcome chain inputs k (ext w)) = true) ->
  exists t,
    invoke_bedrock_with_retry chain inputs 5 1 w
      = (Raise exhausted, mkWorld (state_after chain inputs 5 (ext w)) (trace w ++ t))
    /\ invocations t = 5
    /\ sleeps t = [1; 2; 4; 8; 16]%Z.
Proof.
  intros Hthr. exists (throttled_rounds 5 0 1 5). split; [|split].
  - unfold invoke_bedrock_with_retry.
    change (py_range 5) with (Z.of_nat <$> seq 0 (5 + 0)).
    destruct w as [s t0]. cbn [ext trace] in *.
    rewrite retry_loop_throttled by (assumption || lia).
    reflexivity.
  - apply invocations_throttled_rounds.
  - reflexivity.
Qed.

Lemma always_throttled_sleeps_after_last_attempt_witness :
  exists t,
    invoke_bedrock_with_retry always_throttled tt 5 1 (mkWorld 0 [])
      = (Raise exhausted, mkWorld 5 ([] ++ t))
    /\ invocations t = 5
    /\ sleeps t = [1; 2; 4; 8; 16]%Z.
Proof.
  apply (always_throttled_sleeps_after_last_attempt always_throttled tt (mkWorld 0 [])).
  intros k _. reflexivity.
Defined.

(** C3. A chain whose first call raises an error without the throttling
    marker, with at least one attempt allowed: that same error is raised
    again after one call of the chain, an error log, no sleep and no
    further attempt. *)
Theorem fatal_error_reraised_at_once {St Inp} (chain : Runnable St Inp) (inputs : Inp)
    (max_retries initial_wait : Z) (e : exn) (w : World St) :
  (1 <= max_retries)%Z ->
  fst (chain inputs (ext w)) = Raise e ->
  py_in throttling_marker (exn_str e) = false ->
  let t := [EvInvoke; EvLog ERROR ("Error invoking Bedrock: " +:+ exn_str e)] in
  invoke_bedrock_with_retry chain inputs max_retries initial_wait w
    = (Raise e, mkWorld (snd (chain inputs (ext w))) (trace w ++ t))
  /\ invocations t = 1
  /\ sleeps t = [].
Proof.
  intros Hm He Hfatal t. split; [|split; reflexivity].
  now apply invoke_first_fatal.
Qed.

Lemma fatal_error_reraised_at_once_witness :
  let t := [EvInvoke; EvLog ERROR ("Error invoking Bedrock: " +:+ exn_str access_denied)] in
  invoke_bedrock_with_retry denied tt 5 1 (mkWorld 0 [])
    = (Raise access_denied, mkWorld 1 ([] ++ t))
  /\ invocations t = 1
  /\ sleeps t = [].
Proof.
  apply (fatal_error_reraised_at_once denied tt 5 1 access_denied (mkWorld 0 [])).
  - lia.
  - reflexivity.
  - reflexivity.
Defined.

(** C10. With [max_retries = 0] the loop body is never entered: the chain
    is not called, nothing is logged or slept, and the call fails with the
    RuntimeError of exhaustion. *)
Theorem zero_retries_never_calls {St Inp} (chain : Runnable St Inp) (inputs : Inp)
    (initial_wait : Z) (w : World St) :
  invoke_bedrock_with_retry chain inputs 0 initial_wait w = (Raise exhausted, w).
Proof. reflexivity. Qed.

End InvokerSpec.

(** ** The cleanup step against the specification *)

Module CleanupSpec.
Import PyStr Effects SqlChat PyStrFacts SqlChatFacts Scenarios.

(** C4, as the code runs.  For a raw text that contains the marker, the
    cleanup step returns the text between the first occurrence of the marker
    and the next one (or the end of the text when there is no other),
    trimmed. *)
Theorem cleanup_returns_segment_after_first_marker (raw : string) :
  py_in sql_marker raw = true ->
  cleanup raw = Ok (strip (up_to sql_marker (after_first sql_marker raw))).
Proof. apply cleanup_marked. Qed.

Lemma cleanup_returns_segment_after_first_marker_witness :
  cleanup "Here it is. SQL Query: SELECT 1; " = Ok "SELECT 1;".
Proof.
  apply (cleanup_returns_segment_after_first_marker "Here it is. SQL Query: SELECT 1; ").
  reflexivity.
Defined.

(** When the marker occurs once, that segment is everything after the
    marker, and the code agrees with the specification. *)
Lemma cleanup_single_marker_meets_spec (raw : string) :
  py_in sql_marker raw = true ->
  py_in sql_marker (after_first sql_marker raw) = false ->
  cleanup raw = Ok (clean_generated_text_spec raw).
Proof.
  intros Hin Honce. rewrite cleanup_marked by exact Hin.
  unfold clean_generated_text_spec. rewrite Hin.
  unfold up_to. unfold py_in in Honce.
  now destruct (find sql_marker (after_first sql_marker raw)).
Qed.

(** C4 as stated fails when the marker occurs twice: the code stops at the
    second occurrence, the specification keeps everything after the first. *)
Lemma cleanup_stops_at_second_marker :
  py_in sql_marker twice_marked = true
  /\ cleanup twice_marked = Ok "SELECT 1;"
  /\ clean_generated_text_spec twice_marked = "SELECT 1; SQL Query: SELECT 2;"
  /\ cleanup twice_marked <> Ok (clean_generated_text_spec twice_marked).
Proof. repeat split; try reflexivity. vm_compute. discriminate. Qed.

(** C5, as the code runs.  For a raw text without the marker the cleanup
    step returns the text as it is, untrimmed; it agrees with the
    specification exactly on the texts that have no surrounding whitespace,
    such as [SELECT 1;]. *)
Theorem cleanup_without_marker_returns_raw (raw : string) :
  py_in sql_marker raw = false ->
  cleanup raw = Ok raw
  /\ (cleanup raw = Ok (clean_generated_text_spec raw) <-> strip raw = raw).
Proof.
  intros Hin. rewrite cleanup_unmarked by exact Hin. split; [reflexivity|].
  unfold clean_generated_text_spec. rewrite Hin. split.
  - intros [= H]. now symmetry.
  - intros H. now rewrite H.
Qed.

Lemma cleanup_without_marker_returns_raw_witness :
  cleanup "SELECT 1;" = Ok "SELECT 1;"
  /\ (cleanup "SELECT 1;" = Ok (clean_generated_text_spec "SELECT 1;")
      <-> strip "SELECT 1;" = "SELECT 1;").
Proof.
  apply (cleanup_without_marker_returns_raw "SELECT 1;"). reflexivity.
Defined.

(** C5 as stated fails on a text with surrounding whitespace: it comes back
    untrimmed. *)
Lemma cleanup_leaves_whitespace :
  py_in sql_marker padded = false
  /\ cleanup padded = Ok " SELECT 1; "
  /\ clean_generated_text_spec padded = "SELECT 1;"
  /\ cleanup padded <> Ok (clean_generated_text_spec padded).
Proof. repeat split; try reflexivity. vm_compute. discriminate. Qed.

End CleanupSpec.

(** ** The template registry and the dispatch functions *)

Module SqlChatSpec.
Import PyStr Effects Invoker SqlChat PyStrFacts InvokerFacts SqlChatFacts Scenarios.

(** C6. Every tier has a template, the template is not empty and has the
    placeholder [{skills}]; the templates of intermediate and high also have
    [{experience}]. *)
Theorem templates_defined_with_placeholders :
  Forall (fun tier =>
            exists t, templates !! tier = Some t /\ t <> EmptyString
                      /\ py_in "{skills}" t = true) tiers
  /\ Forall (fun tier =>
               exists t, templates !! tier = Some t
                         /\ py_in "{experience}" t = true) ["intermediate"; "high"].
Proof.
  split.
  - unfold tiers.
    repeat (constructor;
            [eexists; split; [reflexivity|];
             split; [intros H; vm_compute in H; discriminate H | vm_compute; reflexivity]|]).
    constructor.
  - repeat (constructor; [eexists; split; [reflexivity | vm_compute; reflexivity]|]).
    constructor.
Qed.

Section Collaborators.
Context {DB LLM Rows : Type}.
Variable get_table_info : DB -> result string * DB.
Variable db_run : string -> DB -> result Rows * DB.
Variable llm_invoke : string -> LLM -> result string * LLM.

(** C7. A tier name outside the four tiers: the lookup in [templates]
    raises [KeyError] (the spec's UnknownTierError) and [generate_sql] ends
    there, with the world untouched: no chain call, no model call, no
    database call, no log. *)
Theorem unknown_tier_raises_before_any_effect (template_name skills : string)
    (experience : option string) (w : World Collab) :
  template_name ∉ tiers ->
  generate_sql get_table_info llm_invoke template_name skills experience w
  = (Raise (key_error template_name), w).
Proof.
  intros H. unfold generate_sql. now rewrite templates_lookup_none.
Qed.

(** C8. Tier intermediate or high without experience, the schema being
    available: the prompt assembly fails for the missing [{experience}]
    (the spec's MissingExperienceError, a [KeyError] here), the error is
    raised again at once (one chain call, one error log, no sleep, the
    model not called), and neither [generate_sql] nor the dispatch
    functions run a query. *)
Theorem missing_experience_fails_before_query (tier skills schema : string)
    (d1 : DB) (w : World Collab) :
  tier = "intermediate" \/ tier = "high" ->
  get_table_info (db (ext w)) = (Ok schema, d1) ->
  let e := key_error "experience" in
  let t := [EvInvoke; EvLog ERROR ("Error invoking Bedrock: " +:+ exn_str e)] in
  let w' := mkWorld (mkCollab d1 (llm (ext w))) (trace w ++ t) in
  generate_sql get_table_info llm_invoke tier skills None w = (Raise e, w')
  /\ return_intermediate_matched_jobs get_table_info db_run llm_invoke skills None w
     = (Raise e, w')
  /\ return_high_matched_jobs get_table_info db_run llm_invoke skills None w
     = (Raise e, w')
  /\ queries t = [] /\ sleeps t = [] /\ invocations t = 1.
Proof.
  intros Htier Hschema e t w'.
  assert (Hint : generate_sql get_table_info llm_invoke "intermediate" skills None w
                 = (Raise e, w')).
  { apply (generate_sql_fatal _ _ _ intermediate_template);
      [apply templates_intermediate | | reflexivity].
    unfold sql_chain. rewrite Hschema.
    now rewrite format_intermediate_no_experience. }
  assert (Hhigh : generate_sql get_table_info llm_invoke "high" skills None w
                  = (Raise e, w')).
  { apply (generate_sql_fatal _ _ _ high_template);
      [apply templates_high | | reflexivity].
    unfold sql_chain. rewrite Hschema.
    now rewrite format_high_no_experience. }
  split; [now destruct Htier as [->| ->]|].
  split; [unfold return_intermediate_matched_jobs, bind; now rewrite Hint|].
  split; [unfold return_high_matched_jobs, bind; now rewrite Hhigh|].
  repeat split.
Qed.

(** C9. Tier low end to end: the assembled prompt contains the skills as
    literal text, and when the schema is available, the model answers the
    prompt with [raw] and the database answers the cleaned text with
    [rows], [return_low_matched_jobs] returns [rows] after one chain call,
    one log and one query, that of the cleaned text. *)
Theorem low_tier_end_to_end (skills schema prompt raw sql : string) (rows : Rows)
    (d1 d2 : DB) (l1 : LLM) (w : World Collab) :
  get_table_info (db (ext w)) = (Ok schema, d1) ->
  format_prompt low_template (<["schema" := schema]> (build_inputs skills None)) = Ok prompt ->
  llm_invoke prompt (llm (ext w)) = (Ok raw, l1) ->
  cleanup raw = Ok sql ->
  db_run sql d1 = (Ok rows, d2) ->
  py_in skills prompt = true
  /\ return_low_matched_jobs get_table_info db_run llm_invoke skills w
     = (Ok rows,
        mkWorld (mkCollab d2 l1)
          (trace w ++ [EvInvoke; EvLog INFO ("Low matched query: " +:+ sql); EvRun sql])).
Proof.
  intros Hschema Hprompt Hllm Hclean Hrun. split.
  - rewrite format_low in Hprompt. injection Hprompt as <-.
    rewrite <- (append_assoc _ schema), <- (append_assoc _ _ (skills +:+ _)).
    apply py_in_append.
  - unfold return_low_matched_jobs, bind.
    rewrite (generate_sql_ok _ _ "low" low_template skills None raw sql (mkCollab d1 l1));
      [| apply templates_low | | exact Hclean].
    + unfold logging, emit, run_query. cbn [ext trace db llm].
      rewrite Hrun, <- !app_assoc. reflexivity.
    + unfold sql_chain. now rewrite Hschema, Hprompt, Hllm.
Qed.

End Collaborators.

Lemma unknown_tier_raises_before_any_effect_witness :
  generate_sql mock_get_table_info mock_llm "expert" "Python, Java, SQL" None
    (mkWorld (mkCollab 0 0) [])
  = (Raise (key_error "expert"), mkWorld (mkCollab 0 0) []).
Proof.
  apply (unknown_tier_raises_before_any_effect mock_get_table_info mock_llm
           "expert" "Python, Java, SQL" None (mkWorld (mkCollab 0 0) [])).
  unfold tiers. rewrite !elem_of_cons, elem_of_nil.
  intros [H|[H|[H|[H|[]]]]]; discriminate H.
Defined.

Lemma missing_experience_fails_before_query_witness :
  let e := key_error "experience" in
  let t := [EvInvoke; EvLog ERROR ("Error invoking Bedrock: " +:+ exn_str e)] in
  let w := mkWorld (mkCollab 0 0) [] in
  let w' := mkWorld (mkCollab 1 0) ([] ++ t) in
  generate_sql mock_get_table_info mock_llm "high" "Python, Java, SQL" None w = (Raise e, w')
  /\ return_intermediate_matched_jobs mock_get_table_info mock_db_run mock_llm
       "Python, Java, SQL" None w = (Raise e, w')
  /\ return_high_matched_jobs mock_get_table_info mock_db_run mock_llm
       "Python, Java, SQL" None w = (Raise e, w')
  /\ queries t = [] /\ sleeps t = [] /\ invocations t = 1.
Proof.
  apply (missing_experience_fails_before_query mock_get_table_info mock_db_run mock_llm
           "high" "Python, Java, SQL" mock_schema 1 (mkWorld (mkCollab 0 0) [])).
  - right. reflexivity.
  - reflexivity.
Defined.

Lemma low_tier_end_to_end_witness :
  py_in "Python, Java, SQL" mock_prompt = true
  /\ return_low_matched_jobs mock_get_table_info mock_db_run mock_llm "Python, Java, SQL"
       (mkWorld (mkCollab 0 0) [])
     = (Ok mock_rows,
        mkWorld (mkCollab 2 1)
          ([] ++ [EvInvoke; EvLog INFO ("Low matched query: " +:+ mock_sql); EvRun mock_sql])).
Proof.
  apply (low_tier_end_to_end mock_get_table_info mock_db_run mock_llm
           "Python, Java, SQL" mock_schema mock_prompt mock_answer mock_sql mock_rows
           1 2 1 (mkWorld (mkCollab 0 0) [])).
  - reflexivity.
  - vm_compute. reflexivity.
  - reflexivity.
  - vm_compute. reflexivity.
  - reflexivity.
Defined.

End SqlChatSpec.

(** ** More on the retry loop: every run, whatever the chain does *)

Module RetryFacts.
Import PyStr Effects Invoker InvokerFacts Observe.

Lemma geometric_length (w : Z) (n : nat) : length (geometric w n) = n.
Proof. unfold geometric. now rewrite length_fmap, length_seq. Qed.




Lemma exhausted_not_throttling : py_in throttling_marker (exn_str exhausted) = false.
Proof. reflexivity. Qed.

Section Loop.
Context {St Inp : Type}.
Variable chain : Runnable St Inp.
Variable inputs : Inp.

(** Every run of the loop: the trace grows by some events [t], the chain
    has moved by as many calls as [t] has invocations, there are no more of
    them than attempts, and the sleeps are the first waits of the doubling
    schedule. *)
Lemma retry_loop_run (max_retries : Z) (attempts : list Z) (wait_time : Z)
    (s : St) (t0 : list event) :
  exists t n,
    snd (retry_loop chain inputs max_retries attempts wait_time (mkWorld s t0))
      = mkWorld (state_after chain inputs (invocations t) s) (t0 ++ t)
    /\ invocations t <= length attempts
    /\ n <= invocations t
    /\ sleeps t = geometric wait_time n
    /\ queries t = [].
Proof.
  revert wait_time s t0.
  induction attempts as [|attempt rest IH]; intros wait_time s t0.
  - exists [], 0. rewrite app_nil_r. repeat split; reflexivity || lia.
  - rewrite retry_loop_cons. cbn [ext trace].
    destruct (chain inputs s) as [[v|e] s'] eqn:E.
    + exists [EvInvoke], 0. cbn [snd]. repeat split; try reflexivity; cbn; try lia.
      now rewrite E.
    + destruct (py_in throttling_marker (exn_str e));
        [destruct (wait_time <? 0)%Z|].
      * eexists [EvInvoke; EvLog WARNING _], 0. cbn [snd].
        repeat split; try reflexivity; cbn; try lia. now rewrite E.
      * destruct (IH (wait_time * 2)%Z s'
                    (t0 ++ [EvInvoke;
                            EvLog WARNING (retry_warning wait_time attempt max_retries);
                            EvSleep wait_time]))
          as (t & n & Hw & Hinv & Hn & Hsl & Hq).
        eexists ([EvInvoke; EvLog WARNING _; EvSleep wait_time] ++ t), (S n).
        rewrite Hw, <- app_assoc.
        rewrite invocations_app, sleeps_app, queries_app, Hsl, Hq, geometric_succ.
        change (invocations [EvInvoke; EvLog WARNING ?m; EvSleep wait_time]) with 1.
        repeat split; try reflexivity; cbn [length]; try lia.
        cbn [Nat.add state_after]. now rewrite E.
      * eexists [EvInvoke; EvLog ERROR _], 0. cbn [snd].
        repeat split; try reflexivity; cbn; try lia. now rewrite E.
Qed.

(** An error that leaves the loop does not carry the throttling marker. *)
Lemma retry_loop_error (max_retries : Z) (attempts : list Z) (wait_time : Z)
    (w : World St) (e : exn) :
  fst (retry_loop chain inputs max_retries attempts wait_time w) = Raise e ->
  py_in throttling_marker (exn_str e) = false.
Proof.
  revert wait_time w.
  induction attempts as [|attempt rest IH]; intros wait_time w.
  - intros [= <-]. reflexivity.
  - rewrite retry_loop_cons.
    destruct (chain inputs (ext w)) as [[v|e'] s'] eqn:E; [discriminate|].
    destruct (py_in throttling_marker (exn_str e')) eqn:T;
      [destruct (wait_time <? 0)%Z|].
    + intros [= <-]. reflexivity.
    + apply IH.
    + intros [= <-]. exact T.
Qed.

(** A value that leaves the loop is the answer of a call that came after
    throttled calls only. *)
Lemma retry_loop_ok (max_retries : Z) (attempts : list Z) (wait_time : Z)
    (s : St) (t0 : list event) (v : string) :
  fst (retry_loop chain inputs max_retries attempts wait_time (mkWorld s t0)) = Ok v ->
  exists N,
    N < length attempts
    /\ (forall k, k < N -> throttled (outcome chain inputs k s) = true)
    /\ outcome chain inputs N s = Ok v.
Proof.
  revert wait_time s t0.
  induction attempts as [|attempt rest IH]; intros wait_time s t0; [discriminate|].
  rewrite retry_loop_cons. cbn [ext trace].
  destruct (chain inputs s) as [[v'|e] s'] eqn:E.
  - intros [= <-]. exists 0. cbn [length]. split; [lia|]. split; [intros k Hk; lia|].
    unfold outcome. cbn [state_after]. now rewrite E.
  - destruct (py_in throttling_marker (exn_str e)) eqn:T;
      [destruct (wait_time <? 0)%Z|]; try discriminate.
    intros H. apply IH in H as (N & HN & Hthr & Hok).
    exists (S N). cbn [length]. split; [lia|]. split.
    + intros [|k] Hk.
      * unfold outcome. cbn [state_after]. now rewrite E.
      * specialize (Hthr k ltac:(lia)). unfold outcome in *. cbn [state_after].
        now rewrite E.
    + unfold outcome in *. cbn [state_after]. now rewrite E.
Qed.

(** [N] throttled calls and then an answer, within the budget. *)
Lemma invoke_recovers (max_retries initial_wait : Z) (N : nat) (v : string)
    (s : St) (t0 : list event) :
  (Z.of_nat N < max_retries)%Z ->
  (0 <= initial_wait)%Z ->
  (forall k, k < N -> throttled (outcome chain inputs k s) = true) ->
  outcome chain inputs N s = Ok v ->
  invoke_bedrock_with_retry chain inputs max_retries initial_wait (mkWorld s t0)
  = (Ok v,
     mkWorld (state_after chain inputs (S N) s)
       (t0 ++ throttled_rounds max_retries 0 initial_wait N ++ [EvInvoke])).
Proof.
  intros HN Hw Hthr Hok. unfold invoke_bedrock_with_retry, py_range.
  replace (Z.to_nat max_retries) with (N + S (Z.to_nat max_retries - N - 1)) by lia.
  rewrite retry_loop_throttled by assumption.
  cbn [seq fmap list_fmap]. rewrite retry_loop_cons. cbn [ext trace].
  unfold outcome in Hok. rewrite state_after_succ.
  destruct (chain inputs (state_after chain inputs N s)) as [[v'|e] s'];
    cbn [fst] in Hok; [|discriminate].
  injection Hok as ->. cbn [snd]. now rewrite <- app_assoc.
Qed.

End Loop.

Lemma py_range_length (n : Z) : length (py_range n) = Z.to_nat n.
Proof. unfold py_range. now rewrite length_fmap, length_seq. Qed.

(** The seconds of the first [n] waits from 1, for [n] up to 5. *)
Lemma total_geometric_default (n : nat) :
  n <= 5 -> (0 <= foldr Z.add 0 (geometric 1 n) <= 31)%Z.
Proof.
  intros Hn.
  destruct n as [|[|[|[|[|[|n]]]]]]; try (vm_compute; split; discriminate). lia.
Qed.

End RetryFacts.

(** ** The retrying invoker beyond the default scenario *)

Module InvokerMore.
Import PyStr Effects Invoker InvokerFacts Observe RetryFacts Scenarios.





(** X3. A budget that is zero or negative: [range(max_retries)] is empty,
    the chain is never called, nothing is logged or slept, and the call
    fails with the RuntimeError of exhaustion. *)
Theorem no_attempt_without_budget {St Inp} (chain : Runnable St Inp) (inputs : Inp)
    (max_retries initial_wait : Z) (w : World St) :
  (max_retries <= 0)%Z ->
  invoke_bedrock_with_retry chain inputs max_retries initial_wait w = (Raise exhausted, w).
Proof.
  intros H. unfold invoke_bedrock_with_retry, py_range.
  now replace (Z.to_nat max_retries) with 0 by lia.
Qed.

Lemma no_attempt_without_budget_witness :
  invoke_bedrock_with_retry (flaky 0 "SELECT 1;") tt (-3) 1 (mkWorld 0 [])
  = (Raise exhausted, mkWorld 0 []).
Proof.
  apply (no_attempt_without_budget (flaky 0 "SELECT 1;") tt (-3) 1 (mkWorld 0 [])). lia.
Defined.

(** X4. Whatever the chain does: the trace only grows, the chain is called
    at most [max_retries] times (and its state is the one after that many
    calls), and the sleeps are the first waits of the schedule
    [initial_wait, 2 * initial_wait, ...], never more of them than calls. *)
Theorem calls_and_sleeps_are_bounded {St Inp} (chain : Runnable St Inp) (inputs : Inp)
    (max_retries initial_wait : Z) (w : World St) :
  exists t n,
    snd (invoke_bedrock_with_retry chain inputs max_retries initial_wait w)
      = mkWorld (state_after chain inputs (invocations t) (ext w)) (trace w ++ t)
    /\ invocations t <= Z.to_nat max_retries
    /\ n <= invocations t
    /\ sleeps t = (fun k => 2 ^ Z.of_nat k * initial_wait)%Z <$> seq 0 n.
Proof.
  destruct w as [s t0]. unfold invoke_bedrock_with_retry.
  destruct (retry_loop_run chain inputs max_retries (py_range max_retries) initial_wait s t0)
    as (t & n & Hw & Hinv & Hn & Hsl & _).
  exists t, n. rewrite py_range_length in Hinv. now repeat split.
Qed.

(** X5. Throttling never reaches the caller as such: an error raised by
    [invoke_bedrock_with_retry] has no throttling marker in its text. *)
Theorem raised_error_is_not_throttling {St Inp} (chain : Runnable St Inp) (inputs : Inp)
    (max_retries initial_wait : Z) (w : World St) (e : exn) :
  fst (invoke_bedrock_with_retry chain inputs max_retries initial_wait w) = Raise e ->
  py_in throttling_marker (exn_str e) = false.
Proof. apply retry_loop_error. Qed.

Lemma raised_error_is_not_throttling_witness :
  py_in throttling_marker (exn_str exhausted) = false.
Proof.
  apply (raised_error_is_not_throttling always_throttled tt 5 1 (mkWorld 0 []) exhausted).
  reflexivity.
Defined.

(** X6. A value is returned only after a recovery: if the call returns
    [v], then some call number [N < max_retries] of the chain answered [v]
    and all the calls before it were throttled. *)
Theorem returned_value_comes_from_the_chain {St Inp} (chain : Runnable St Inp)
    (inputs : Inp) (max_retries initial_wait : Z) (w : World St) (v : string) :
  fst (invoke_bedrock_with_retry chain inputs max_retries initial_wait w) = Ok v ->
  exists N,
    (Z.of_nat N < max_retries)%Z
    /\ (forall k, k < N -> throttled (outcome chain inputs k (ext w)) = true)
    /\ outcome chain inputs N (ext w) = Ok v.
Proof.
  destruct w as [s t0]. unfold invoke_bedrock_with_retry. intros H.
  apply retry_loop_ok in H as (N & HN & Hthr & Hok).
  rewrite py_range_length in HN. exists N. split; [lia|]. now split.
Qed.

Lemma returned_value_comes_from_the_chain_witness :
  exists N,
    (Z.of_nat N < 5)%Z
    /\ (forall k, k < N -> throttled (outcome (flaky 2 "SELECT 1;") tt k 0) = true)
    /\ outcome (flaky 2 "SELECT 1;") tt N 0 = Ok "SELECT 1;".
Proof.
  apply (returned_value_comes_from_the_chain (flaky 2 "SELECT 1;") tt 5 1 (mkWorld 0 [])).
  reflexivity.
Defined.

(** X7. A negative wait: the first throttled attempt logs its warning and
    then [time.sleep] refuses the duration, so the call ends with
    [ValueError] after one call of the chain, without sleep or retry. *)
Theorem negative_wait_stops_at_first_throttle {St Inp} (chain : Runnable St Inp)
    (inputs : Inp) (max_retries initial_wait : Z) (w : World St) :
  (1 <= max_retries)%Z ->
  (initial_wait < 0)%Z ->
  throttled (outcome chain inputs 0 (ext w)) = true ->
  invoke_bedrock_with_retry chain inputs max_retries initial_wait w
  = (Raise (value_error "sleep length must be non-negative"),
     mkWorld (snd (chain inputs (ext w)))
       (trace w ++ [EvInvoke; EvLog WARNING (retry_warning initial_wait 0 max_retries)])).
Proof.
  intros Hm Hw Hthr. unfold invoke_bedrock_with_retry, py_range.
  replace (Z.to_nat max_retries) with (S (Z.to_nat max_retries - 1)) by lia.
  cbn [seq fmap list_fmap]. rewrite retry_loop_cons.
  unfold outcome in Hthr. cbn [state_after] in Hthr.
  destruct (chain inputs (ext w)) as [[v|e] s]; cbn [fst throttled] in Hthr;
    [discriminate|].
  rewrite Hthr. destruct (Z.ltb_spec initial_wait 0); [reflexivity | lia].
Qed.

Lemma negative_wait_stops_at_first_throttle_witness :
  invoke_bedrock_with_retry (flaky 1 "SELECT 1;") tt 5 (-1) (mkWorld 0 [])
  = (Raise (value_error "sleep length must be non-negative"),
     mkWorld 1
       ([] ++ [EvInvoke;
               EvLog WARNING "ThrottlingException: Retrying in -1s (attempt 1/5)"])).
Proof.
  apply (negative_wait_stops_at_first_throttle (flaky 1 "SELECT 1;") tt 5 (-1) (mkWorld 0 [])).
  - lia.
  - lia.
  - reflexivity.
Defined.



End InvokerMore.

(** ** More on the text operations: trimming and occurrences *)

Module StripFacts.
Import PyStr PyStrFacts.
#[local] Arguments String.append !s1 s2 : simpl nomatch.

Lemma lstrip_idem (s : string) : lstrip (lstrip s) = lstrip s.
Proof.
  induction s as [|c s IH]; [reflexivity|]. simpl.
  destruct (py_isspace c) eqn:E; [exact IH|]. simpl. now rewrite E.
Qed.

Lemma rstrip_cons (c : ascii) (s : string) :
  rstrip (String c s) =
    match rstrip s with
    | EmptyString => if py_isspace c then EmptyString else String c EmptyString
    | r => String c r
    end.
Proof. reflexivity. Qed.

Lemma rstrip_idem (s : string) : rstrip (rstrip s) = rstrip s.
Proof.
  induction s as [|c s IH]; [reflexivity|]. rewrite rstrip_cons.
  destruct (rstrip s) as [|d r] eqn:E.
  - destruct (py_isspace c) eqn:Ec; [reflexivity|].
    rewrite rstrip_cons. cbn [rstrip]. now rewrite Ec.
  - rewrite rstrip_cons, IH. reflexivity.
Qed.

(** Trimming on the left keeps a text trimmed on the right. *)
Lemma rstrip_lstrip (s : string) : rstrip s = s -> rstrip (lstrip s) = lstrip s.
Proof.
  induction s as [|c s IH]; [reflexivity|]. intros H. simpl.
  destruct (py_isspace c) eqn:Ec; [|exact H].
  apply IH. rewrite rstrip_cons in H.
  destruct (rstrip s) as [|d r] eqn:E.
  - rewrite Ec in H. discriminate.
  - now injection H.
Qed.

Lemma lstrip_strip (s : string) : lstrip (strip s) = strip s.
Proof. apply lstrip_idem. Qed.

Lemma rstrip_strip (s : string) : rstrip (strip s) = strip s.
Proof. apply rstrip_lstrip, rstrip_idem. Qed.

(** A trimmed text is a piece of the text. *)
Lemma lstrip_piece (s : string) : exists a, s = a +:+ lstrip s.
Proof.
  induction s as [|c s [a IH]]; [now exists EmptyString|]. simpl.
  destruct (py_isspace c).
  - exists (String c a). simpl. now rewrite <- IH.
  - now exists EmptyString.
Qed.

Lemma rstrip_piece (s : string) : exists b, s = rstrip s +:+ b.
Proof.
  induction s as [|c s [b IH]]; [now exists EmptyString|]. rewrite rstrip_cons.
  destruct (rstrip s) as [|d r] eqn:E.
  - destruct (py_isspace c).
    + now exists (String c s).
    + exists b. rewrite IH at 1. reflexivity.
  - exists b. rewrite IH at 1. reflexivity.
Qed.

Lemma strip_piece (s : string) : exists a b, s = a +:+ strip s +:+ b.
Proof.
  destruct (rstrip_piece s) as [b Hb]. destruct (lstrip_piece (rstrip s)) as [a Ha].
  exists a, b. unfold strip. now rewrite <- append_assoc, <- Ha.
Qed.

(** What occurs in a piece occurs in the whole. *)
Lemma py_in_piece (sub t a b : string) :
  py_in sub t = true -> py_in sub (a +:+ t +:+ b) = true.
Proof.
  unfold py_in at 1. destruct (find sub t) as [i|] eqn:F; [intros _|discriminate].
  rewrite (find_occurrence _ _ _ F).
  rewrite !append_assoc, <- (append_assoc a). apply py_in_append.
Qed.

Lemma find_at (sub s : string) (j : nat) :
  find sub s = Some j -> String.prefix sub (str_drop j s) = true.
Proof.
  revert j; induction s as [|c s IH]; intros j H;
    apply find_some_inv in H as [[-> P]|(d & s' & k & E & -> & P & F)];
    try exact P; try discriminate.
  injection E as <- <-. simpl. now apply IH.
Qed.

Lemma length_take (i : nat) (s : string) :
  String.length (str_take i s) = Nat.min i (String.length s).
Proof.
  revert s; induction i as [|i IH]; intros [|c s]; simpl; try reflexivity.
  now rewrite IH.
Qed.

Lemma drop_append_le (j : nat) (x r : string) :
  j <= String.length x -> str_drop j (x +:+ r) = str_drop j x +:+ r.
Proof.
  revert x; induction j as [|j IH]; intros x H; [reflexivity|].
  destruct x as [|c x]; simpl in *; [lia|]. apply IH. lia.
Qed.

Lemma prefix_append_r (sub x r : string) :
  String.prefix sub x = true -> String.prefix sub (x +:+ r) = true.
Proof.
  intros H. rewrite (prefix_split _ _ H), append_assoc. apply prefix_append.
Qed.

(** What precedes the first occurrence of a separator has no occurrence. *)
Lemma find_take_none (sep s : string) (i : nat) :
  0 < String.length sep -> find sep s = Some i -> find sep (str_take i s) = None.
Proof.
  intros Hsep F. destruct (find sep (str_take i s)) as [j|] eqn:G; [|reflexivity].
  exfalso.
  pose proof (find_bound _ _ _ G) as B. rewrite length_take in B.
  pose proof (find_at _ _ _ G) as P.
  apply (prefix_append_r _ _ (str_drop i s)) in P.
  rewrite <- drop_append_le, take_drop in P by (rewrite length_take; lia).
  rewrite (find_first sep s i j F) in P by lia. discriminate.
Qed.

Lemma up_to_free (sep s : string) :
  0 < String.length sep -> py_in sep (SqlChat.up_to sep s) = false.
Proof.
  intros Hsep. unfold SqlChat.up_to, py_in.
  destruct (find sep s) as [i|] eqn:F.
  - now rewrite (find_take_none sep s i).
  - now rewrite F.
Qed.

End StripFacts.

(** ** The cleanup step: what every result satisfies *)

Module CleanupMore.
Import PyStr Effects SqlChat PyStrFacts SqlChatFacts StripFacts Scenarios.

Lemma sql_marker_length : 0 < String.length sql_marker.
Proof. cbn. lia. Qed.

(** The result of the cleanup step is a piece of the raw text. *)
Lemma cleanup_piece (raw sql : string) :
  cleanup raw = Ok sql -> exists a b, raw = a +:+ sql +:+ b.
Proof.
  destruct (py_in sql_marker raw) eqn:Hin.
  - rewrite cleanup_marked by exact Hin. intros [= <-].
    unfold py_in in Hin. unfold after_first.
    destruct (find sql_marker raw) as [i|] eqn:F; [|discriminate].
    set (rest := str_drop (i + String.length sql_marker) raw).
    destruct (strip_piece (up_to sql_marker rest)) as (a & b & Hab).
    assert (Hrest : exists c, rest = up_to sql_marker rest +:+ c).
    { unfold up_to. destruct (find sql_marker rest) as [j|].
      - exists (str_drop j rest). now rewrite take_drop.
      - exists EmptyString. now rewrite append_empty_r. }
    destruct Hrest as [c Hc].
    exists (str_take i raw +:+ sql_marker +:+ a), (b +:+ c).
    rewrite (find_occurrence _ _ _ F) at 1. fold rest.
    rewrite Hc at 1. rewrite Hab at 1.
    now rewrite !append_assoc.
  - rewrite cleanup_unmarked by exact Hin. intros [= <-].
    exists EmptyString, EmptyString. now rewrite append_empty_r.
Qed.

(** The result of the cleanup step has no marker left. *)
Lemma cleanup_free (raw sql : string) :
  cleanup raw = Ok sql -> py_in sql_marker sql = false.
Proof.
  destruct (py_in sql_marker raw) eqn:Hin.
  - rewrite cleanup_marked by exact Hin. intros [= <-].
    destruct (py_in sql_marker (strip (up_to sql_marker (after_first sql_marker raw))))
      eqn:E; [|reflexivity].
    destruct (strip_piece (up_to sql_marker (after_first sql_marker raw))) as (a & b & Hab).
    apply (py_in_piece _ _ a b) in E. rewrite <- Hab in E.
    now rewrite up_to_free in E by apply sql_marker_length.
  - rewrite cleanup_unmarked by exact Hin. now intros [= <-].
Qed.

(** X9. The subscript [[1]] of the cleanup step is always in range: for
    every raw text the step returns a text, it never raises. *)
Theorem cleanup_never_raises (raw : string) : exists sql, cleanup raw = Ok sql.
Proof. apply cleanup_total. Qed.

(** X10. The cleaned text has no marker left, so that cleaning it again
    changes nothing. *)
Theorem cleanup_is_idempotent (raw sql : string) :
  cleanup raw = Ok sql ->
  py_in sql_marker sql = false /\ cleanup sql = Ok sql.
Proof.
  intros H. apply cleanup_free in H. split; [exact H | now apply cleanup_unmarked].
Qed.

Lemma cleanup_is_idempotent_witness :
  py_in sql_marker "SELECT 1;" = false /\ cleanup "SELECT 1;" = Ok "SELECT 1;".
Proof. apply (cleanup_is_idempotent twice_marked "SELECT 1;"). reflexivity. Defined.

(** X11. When the raw text has the marker, the cleaned text has no
    whitespace left at either end. *)
Theorem cleanup_of_marked_text_is_trimmed (raw sql : string) :
  py_in sql_marker raw = true ->
  cleanup raw = Ok sql ->
  lstrip sql = sql /\ rstrip sql = sql.
Proof.
  intros Hin. rewrite cleanup_marked by exact Hin. intros [= <-].
  split; [apply lstrip_strip | apply rstrip_strip].
Qed.

Lemma cleanup_of_marked_text_is_trimmed_witness :
  lstrip "SELECT 1;" = "SELECT 1;" /\ rstrip "SELECT 1;" = "SELECT 1;".
Proof.
  apply (cleanup_of_marked_text_is_trimmed twice_marked "SELECT 1;"); reflexivity.
Defined.

(** X12. The cleanup step only cuts: the cleaned text is a contiguous piece
    of the raw text, nothing is added or rewritten. *)
Theorem cleanup_returns_a_piece_of_raw (raw sql : string) :
  cleanup raw = Ok sql -> exists a b, raw = a +:+ sql +:+ b.
Proof. apply cleanup_piece. Qed.

Lemma cleanup_returns_a_piece_of_raw_witness :
  exists a b, twice_marked = a +:+ "SELECT 1;" +:+ b.
Proof. apply (cleanup_returns_a_piece_of_raw twice_marked "SELECT 1;"). reflexivity. Defined.

End CleanupMore.

(** ** SQL generation and dispatch: every run *)

Module PipelineFacts.
Import PyStr Effects Invoker SqlChat PyStrFacts InvokerFacts SqlChatFacts Observe RetryFacts.

Lemma tier_key_template (t : tier) : is_Some (templates !! tier_key t).
Proof. destruct t; eexists; reflexivity. Qed.

Lemma total_sleep_app (t1 t2 : list event) :
  total_sleep (t1 ++ t2) = (total_sleep t1 + total_sleep t2)%Z.
Proof.
  unfold total_sleep. rewrite sleeps_app.
  induction (sleeps t1) as [|x l IH]; cbn [app foldr]; lia.
Qed.

Section Collaborators.
Context {DB LLM Rows : Type}.
Variable get_table_info : DB -> result string * DB.
Variable db_run : string -> DB -> result Rows * DB.
Variable llm_invoke : string -> LLM -> result string * LLM.

(** The four functions have one shape. *)
Lemma return_matched_jobs_eq (t : tier) (skills : string) (experience : option string) :
  return_matched_jobs get_table_info db_run llm_invoke t skills experience
  = bind (generate_sql get_table_info llm_invoke (tier_key t) skills
            (tier_experience t experience))
      (fun sql_query =>
         bind (logging INFO (tier_label t +:+ sql_query))
           (fun _ => run_query db_run sql_query)).
Proof. destruct t; reflexivity. Qed.

(** [generate_sql] leaves the world as the invoker leaves it. *)
Lemma generate_sql_world (template_name template skills : string)
    (experience : option string) (w : World Collab) :
  templates !! template_name = Some template ->
  snd (generate_sql get_table_info llm_invoke template_name skills experience w)
  = snd (invoke_bedrock_with_retry (sql_chain get_table_info llm_invoke template)
           (build_inputs skills experience) 5 1 w).
Proof.
  intros Ht. unfold generate_sql. rewrite Ht. unfold bind, lift.
  now destruct (invoke_bedrock_with_retry _ _ 5 1 w) as [[raw|e] w1].
Qed.

Lemma generate_sql_raises (template_name template skills : string)
    (experience : option string) (w : World Collab) (e : exn) :
  templates !! template_name = Some template ->
  fst (generate_sql get_table_info llm_invoke template_name skills experience w) = Raise e ->
  fst (invoke_bedrock_with_retry (sql_chain get_table_info llm_invoke template)
         (build_inputs skills experience) 5 1 w) = Raise e.
Proof.
  intros Ht. unfold generate_sql. rewrite Ht. unfold bind, lift.
  destruct (invoke_bedrock_with_retry _ _ 5 1 w) as [[raw|e'] w1]; cbn [fst]; [|easy].
  destruct (cleanup_total raw) as [sql ->]. discriminate.
Qed.

(** Every call of the chain starts by reading the schema. *)
Lemma sql_chain_db (template : string) (inputs : gmap string string) (c : Collab) :
  db (snd (sql_chain get_table_info llm_invoke template inputs c))
  = fetch_schema get_table_info (db c).
Proof.
  unfold sql_chain, fetch_schema.
  destruct (get_table_info (db c)) as [[schema|e] d]; [|reflexivity].
  destruct (format_prompt template _); [|reflexivity].
  now destruct (llm_invoke _ (llm c)).
Qed.

Lemma state_after_db (template : string) (inputs : gmap string string) (k : nat) (c : Collab) :
  db (state_after (sql_chain get_table_info llm_invoke template) inputs k c)
  = Nat.iter k (fetch_schema get_table_info) (db c).
Proof.
  revert c; induction k as [|k IH]; intros c; [reflexivity|].
  cbn [state_after]. rewrite IH, sql_chain_db. symmetry. apply Nat.iter_succ_r.
Qed.

(** A call of the chain that cannot read the schema leaves the model
    alone. *)
Lemma sql_chain_schema_error (template : string) (inputs : gmap string string)
    (c : Collab) (e : exn) (d : DB) :
  get_table_info (db c) = (Raise e, d) ->
  sql_chain get_table_info llm_invoke template inputs c = (Raise e, mkCollab d (llm c)).
Proof. intros H. unfold sql_chain. now rewrite H. Qed.

Lemma state_after_schema_error (template : string) (inputs : gmap string string)
    (k : nat) (c : Collab) :
  (forall d, throttled (fst (get_table_info d)) = true) ->
  llm (state_after (sql_chain get_table_info llm_invoke template) inputs k c) = llm c
  /\ throttled (outcome (sql_chain get_table_info llm_invoke template) inputs k c) = true.
Proof.
  intros H. unfold outcome. revert c; induction k as [|k IH]; intros c.
  - split; [reflexivity|]. cbn [state_after]. unfold sql_chain.
    specialize (H (db c)). now destruct (get_table_info (db c)) as [[schema|e] d].
  - cbn [state_after]. destruct (IH (snd (sql_chain get_table_info llm_invoke template inputs c)))
      as [Hl Ho].
    split; [|exact Ho]. rewrite Hl. unfold sql_chain.
    specialize (H (db c)). now destruct (get_table_info (db c)) as [[schema|e] d].
Qed.

(** The events of a run of [generate_sql]. *)
Lemma generate_sql_effects_bounds_aux (template_name skills : string)
    (experience : option string) (w : World Collab) :
  exists t,
    trace (snd (generate_sql get_table_info llm_invoke template_name skills experience w))
      = trace w ++ t
    /\ invocations t <= 5
    /\ (0 <= total_sleep t <= 31)%Z
    /\ queries t = [].
Proof.
  destruct (templates !! template_name) as [template|] eqn:Ht.
  - rewrite (generate_sql_world _ template) by exact Ht.
    destruct w as [c t0]. unfold invoke_bedrock_with_retry.
    destruct (retry_loop_run (sql_chain get_table_info llm_invoke template)
                (build_inputs skills experience) 5 (py_range 5) 1 c t0)
      as (t & n & Hw & Hinv & Hn & Hsl & Hq).
    exists t. rewrite Hw. cbn [ext trace]. change (length (py_range 5)) with 5 in Hinv.
    repeat split; try assumption;
      unfold total_sleep; rewrite Hsl; apply total_geometric_default; lia.
  - exists []. unfold generate_sql. rewrite Ht. cbn. rewrite app_nil_r.
    repeat split; reflexivity || lia.
Qed.

End Collaborators.

End PipelineFacts.

Module GenerationBounds.
Import PyStr Effects Invoker SqlChat PyStrFacts InvokerFacts SqlChatFacts.
Import Observe RetryFacts PipelineFacts Scenarios.

Section Collaborators.
Context {DB LLM Rows : Type}.
Variable get_table_info : DB -> result string * DB.
Variable db_run : string -> DB -> result Rows * DB.
Variable llm_invoke : string -> LLM -> result string * LLM.

(** X13. Whatever the tier name, the arguments and the collaborators do,
    [generate_sql] only adds to the trace, calls the chain at most 5 times,
    sleeps at most 31 seconds in all, runs no query, and has the schema
    read once per call of the chain, so once more at every retry. *)
Theorem generate_sql_effects_are_bounded (template_name skills : string)
    (experience : option string) (w : World Collab) :
  exists t,
    let w' := snd (generate_sql get_table_info llm_invoke template_name skills experience w) in
    trace w' = trace w ++ t
    /\ invocations t <= 5
    /\ (0 <= total_sleep t <= 31)%Z
    /\ queries t = []
    /\ db (ext w') = Nat.iter (invocations t) (fetch_schema get_table_info) (db (ext w)).
Proof.
  destruct (templates !! template_name) as [template|] eqn:Ht.
  - rewrite (generate_sql_world _ _ _ template) by exact Ht.
    destruct w as [c t0]. unfold invoke_bedrock_with_retry.
    destruct (retry_loop_run (sql_chain get_table_info llm_invoke template)
                (build_inputs skills experience) 5 (py_range 5) 1 c t0)
      as (t & n & Hw & Hinv & Hn & Hsl & Hq).
    exists t. cbn zeta. rewrite Hw. cbn [ext trace]. change (length (py_range 5)) with 5 in Hinv.
    repeat split; try assumption.
    + unfold total_sleep. rewrite Hsl. apply total_geometric_default. lia.
    + unfold total_sleep. rewrite Hsl. apply total_geometric_default. lia.
    + apply state_after_db.
  - exists []. unfold generate_sql. rewrite Ht. cbn. rewrite app_nil_r.
    repeat split; reflexivity || lia.
Qed.

(** X14. Each of the four dispatch functions, whatever happens: at most 5
    calls of the chain, at most 31 seconds of sleep, and at most one query
    run. *)
Theorem dispatch_effects_are_bounded (t : tier) (skills : string)
    (experience : option string) (w : World Collab) :
  exists evs,
    trace (snd (return_matched_jobs get_table_info db_run llm_invoke t skills experience w))
      = trace w ++ evs
    /\ invocations evs <= 5
    /\ (0 <= total_sleep evs <= 31)%Z
    /\ length (queries evs) <= 1.
Proof.
  rewrite return_matched_jobs_eq. unfold bind.
  destruct (generate_sql_effects_bounds_aux get_table_info llm_invoke (tier_key t) skills
              (tier_experience t experience) w) as (evs & Htr & Hinv & Hsl & Hq).
  destruct (generate_sql get_table_info llm_invoke (tier_key t) skills
              (tier_experience t experience) w) as [[sql|e] w1]; cbn [snd] in Htr.
  - exists (evs ++ [EvLog INFO (tier_label t +:+ sql); EvRun sql]).
    unfold logging, emit, run_query. cbn [ext trace].
    destruct (db_run sql (db (ext w1))) as [r d2]. cbn [snd trace].
    rewrite Htr, <- !app_assoc, invocations_app, total_sleep_app, queries_app, Hq.
    cbn [app]. repeat split; cbn; lia.
  - exists evs. cbn [snd]. rewrite Hq. repeat split; cbn; assumption || lia.
Qed.

End Collaborators.

End GenerationBounds.

Module DispatchMore.
Import PyStr Effects Invoker SqlChat PyStrFacts InvokerFacts SqlChatFacts.
Import Observe RetryFacts PipelineFacts Scenarios.

Section Collaborators.
Context {DB LLM Rows : Type}.
Variable get_table_info : DB -> result string * DB.
Variable db_run : string -> DB -> result Rows * DB.
Variable llm_invoke : string -> LLM -> result string * LLM.

(** X15. Once [generate_sql] has produced a query, each of the four
    dispatch functions logs it, runs it once, and ends as [db.run] ends:
    with its rows, or with its error, raised as it is and never retried,
    whatever its text. *)
Theorem dispatch_ends_as_the_query_ends (t : tier) (skills sql : string)
    (experience : option string) (r : result Rows) (d2 : DB) (w w1 : World Collab) :
  generate_sql get_table_info llm_invoke (tier_key t) skills (tier_experience t experience) w
    = (Ok sql, w1) ->
  db_run sql (db (ext w1)) = (r, d2) ->
  return_matched_jobs get_table_info db_run llm_invoke t skills experience w
  = (r, mkWorld (mkCollab d2 (llm (ext w1)))
          (trace w1 ++ [EvLog INFO (tier_label t +:+ sql); EvRun sql])).
Proof.
  intros Hgen Hrun. rewrite return_matched_jobs_eq. unfold bind. rewrite Hgen.
  unfold logging, emit, run_query. cbn [ext trace]. rewrite Hrun, <- app_assoc.
  now destruct r.
Qed.

(** X16. When [generate_sql] raises, each of the four dispatch functions
    raises the same error and leaves the world as [generate_sql] left it:
    no log of a query, no query run. *)
Theorem dispatch_stops_when_generation_fails (t : tier) (skills : string)
    (experience : option string) (e : exn) (w w1 : World Collab) :
  generate_sql get_table_info llm_invoke (tier_key t) skills (tier_experience t experience) w
    = (Raise e, w1) ->
  return_matched_jobs get_table_info db_run llm_invoke t skills experience w = (Raise e, w1).
Proof.
  intros Hgen. rewrite return_matched_jobs_eq. unfold bind. now rewrite Hgen.
Qed.

(** X17. An error of [generate_sql] is the [KeyError] of an unknown tier
    name or an error raised by the retrying invoker: the cleanup step adds
    none. *)
Theorem generate_sql_error_sources (template_name skills : string)
    (experience : option string) (e : exn) (w : World Collab) :
  fst (generate_sql get_table_info llm_invoke template_name skills experience w) = Raise e ->
  (templates !! template_name = None /\ e = key_error template_name)
  \/ (exists template,
        templates !! template_name = Some template
        /\ fst (invoke_bedrock_with_retry (sql_chain get_table_info llm_invoke template)
                  (build_inputs skills experience) 5 1 w) = Raise e).
Proof.
  intros H. destruct (templates !! template_name) as [template|] eqn:Ht.
  - right. exists template. split; [reflexivity|].
    now apply (generate_sql_raises _ _ template_name).
  - left. split; [reflexivity|]. unfold generate_sql in H. rewrite Ht in H.
    now injection H.
Qed.

(** X18. When the schema cannot be read and the error is not a throttling
    one, [generate_sql] raises that error after one call of the chain: the
    prompt is not assembled and the model is not called. *)
Theorem schema_error_stops_before_the_model (t : tier) (skills : string)
    (experience : option string) (e : exn) (d1 : DB) (w : World Collab) :
  get_table_info (db (ext w)) = (Raise e, d1) ->
  py_in throttling_marker (exn_str e) = false ->
  generate_sql get_table_info llm_invoke (tier_key t) skills experience w
  = (Raise e,
     mkWorld (mkCollab d1 (llm (ext w)))
       (trace w ++ [EvInvoke; EvLog ERROR ("Error invoking Bedrock: " +:+ exn_str e)])).
Proof.
  intros Hschema Hfatal. destruct (tier_key_template t) as [template Ht].
  apply (generate_sql_fatal _ _ _ template); [exact Ht | | exact Hfatal].
  now apply sql_chain_schema_error.
Qed.

(** X19. The retry policy looks at the text of any error of the chain, not
    at where it comes from: when reading the schema fails every time with
    an error whose text has the throttling marker, [generate_sql] reads the
    schema 5 times, sleeps 1, 2, 4, 8 and 16 seconds and fails with the
    RuntimeError of exhaustion, and the model is never called. *)
Theorem throttled_schema_is_retried (t : tier) (skills : string)
    (experience : option string) (w : World Collab) :
  (forall d, throttled (fst (get_table_info d)) = true) ->
  exists evs,
    generate_sql get_table_info llm_invoke (tier_key t) skills experience w
      = (Raise exhausted,
         mkWorld (mkCollab (Nat.iter 5 (fetch_schema get_table_info) (db (ext w)))
                    (llm (ext w)))
           (trace w ++ evs))
    /\ invocations evs = 5
    /\ sleeps evs = [1; 2; 4; 8; 16]%Z.
Proof.
  intros Hthr. destruct (tier_key_template t) as [template Ht].
  exists (throttled_rounds 5 0 1 5). split; [|split; reflexivity].
  unfold generate_sql. rewrite Ht. unfold bind, invoke_bedrock_with_retry.
  change (py_range 5) with (Z.of_nat <$> seq 0 (5 + 0)).
  destruct w as [c t0]. cbn [ext trace].
  rewrite retry_loop_throttled;
    [| lia | intros k _; now apply state_after_schema_error].
  cbn [seq fmap list_fmap retry_loop raise].
  do 3 f_equal.
  set (chain := sql_chain get_table_info llm_invoke template).
  pose proof (state_after_db get_table_info llm_invoke template
                (build_inputs skills experience) 5 c) as Hdb.
  destruct (state_after_schema_error get_table_info llm_invoke template
              (build_inputs skills experience) 5 c Hthr) as [Hllm _].
  fold chain in Hdb, Hllm.
  destruct (state_after chain (build_inputs skills experience) 5 c) as [d l].
  cbn [db llm] in Hdb, Hllm. now rewrite Hdb, Hllm.
Qed.

(** X20. [generate_sql] rides out throttling of the model: when the schema
    can be read, the prompt is assembled, and the model is throttled on its
    first [N] calls, [N < 5], and then answers [raw], the result is the
    cleaned [raw] after [N + 1] calls of the model, as many readings of the
    schema, and sleeps of 1, 2, ... seconds, [N] of them. *)
Theorem generate_sql_rides_out_throttling (t : tier) (skills schema prompt raw sql : string)
    (experience : option string) (template : string) (N : nat) (w : World Collab) :
  templates !! tier_key t = Some template ->
  (forall d, fst (get_table_info d) = Ok schema) ->
  format_prompt template (<["schema" := schema]> (build_inputs skills experience))
    = Ok prompt ->
  N < 5 ->
  (forall k, k < N ->
     throttled (fst (llm_invoke prompt (Nat.iter k (llm_step llm_invoke prompt) (llm (ext w)))))
     = true) ->
  fst (llm_invoke prompt (Nat.iter N (llm_step llm_invoke prompt) (llm (ext w)))) = Ok raw ->
  cleanup raw = Ok sql ->
  exists evs,
    generate_sql get_table_info llm_invoke (tier_key t) skills experience w
      = (Ok sql,
         mkWorld (mkCollab (Nat.iter (S N) (fetch_schema get_table_info) (db (ext w)))
                    (Nat.iter (S N) (llm_step llm_invoke prompt) (llm (ext w))))
           (trace w ++ evs))
    /\ invocations evs = S N
    /\ sleeps evs = (fun k => 2 ^ Z.of_nat k * 1)%Z <$> seq 0 N.
Proof.
  intros Ht Hschema Hprompt HN Hthr Hok Hclean.
  set (chain := sql_chain get_table_info llm_invoke template).
  set (inputs := build_inputs skills experience).
  assert (Hcall : forall c,
            chain inputs c
            = (fst (llm_invoke prompt (llm c)),
               mkCollab (fetch_schema get_table_info (db c))
                 (llm_step llm_invoke prompt (llm c)))).
  { intros c. unfold chain, inputs, sql_chain, fetch_schema, llm_step.
    specialize (Hschema (db c)).
    destruct (get_table_info (db c)) as [r d]. cbn [fst snd] in *. subst r.
    rewrite Hprompt. now destruct (llm_invoke prompt (llm c)). }
  assert (Hstate : forall k c,
            state_after chain inputs k c
            = mkCollab (Nat.iter k (fetch_schema get_table_info) (db c))
                (Nat.iter k (llm_step llm_invoke prompt) (llm c))).
  { induction k as [|k IH]; intros c; [now destruct c|].
    cbn [state_after]. rewrite IH, Hcall. cbn [snd db llm].
    now rewrite <- !Nat.iter_succ_r. }
  assert (Hout : forall k c,
            outcome chain inputs k c
            = fst (llm_invoke prompt (Nat.iter k (llm_step llm_invoke prompt) (llm c)))).
  { intros k c. unfold outcome. now rewrite Hstate, Hcall. }
  exists (throttled_rounds 5 0 1 N ++ [EvInvoke]). split; [|split].
  - unfold generate_sql. rewrite Ht. unfold bind. fold chain inputs.
    destruct w as [c t0]. cbn [ext trace] in *.
    rewrite (invoke_recovers chain inputs 5 1 N raw c t0);
      [| lia | lia | intros k Hk; rewrite Hout; now apply Hthr | now rewrite Hout].
    unfold lift. now rewrite Hclean, Hstate.
  - rewrite invocations_app, invocations_throttled_rounds. cbn. lia.
  - rewrite sleeps_app, sleeps_throttled_rounds. apply app_nil_r.
Qed.

End Collaborators.

Lemma dispatch_ends_as_the_query_ends_witness :
  return_matched_jobs mock_get_table_info throttled_db_run mock_llm Low "Python, Java, SQL"
    None (mkWorld (mkCollab 0 0) [])
  = (Raise throttling_error,
     mkWorld (mkCollab 2 1)
       ([EvInvoke] ++ [EvLog INFO (tier_label Low +:+ mock_sql); EvRun mock_sql])).
Proof.
  apply (dispatch_ends_as_the_query_ends mock_get_table_info throttled_db_run mock_llm
           Low "Python, Java, SQL" mock_sql None (Raise throttling_error) 2
           (mkWorld (mkCollab 0 0) []) (mkWorld (mkCollab 1 1) [EvInvoke])).
  - vm_compute. reflexivity.
  - reflexivity.
Defined.

Lemma dispatch_stops_when_generation_fails_witness :
  return_matched_jobs unreadable_schema mock_db_run mock_llm High "Python, Java, SQL"
    (Some "2 Years") (mkWorld (mkCollab 0 0) [])
  = (Raise (PyExc "OperationalError" "connection refused"),
     mkWorld (mkCollab 1 0)
       [EvInvoke; EvLog ERROR "Error invoking Bedrock: connection refused"]).
Proof.
  apply (dispatch_stops_when_generation_fails unreadable_schema mock_db_run mock_llm
           High "Python, Java, SQL" (Some "2 Years")).
  vm_compute. reflexivity.
Defined.

Lemma generate_sql_error_sources_witness :
  (templates !! "expert" = None /\ key_error "expert" = key_error "expert")
  \/ (exists template,
        templates !! "expert" = Some template
        /\ fst (invoke_bedrock_with_retry (sql_chain mock_get_table_info mock_llm template)
                  (build_inputs "Python" None) 5 1 (mkWorld (mkCollab 0 0) []))
           = Raise (key_error "expert")).
Proof.
  apply (generate_sql_error_sources mock_get_table_info mock_llm "expert" "Python" None
           (key_error "expert") (mkWorld (mkCollab 0 0) [])).
  reflexivity.
Defined.

Lemma schema_error_stops_before_the_model_witness :
  generate_sql unreadable_schema mock_llm (tier_key Medium) "Python" None
    (mkWorld (mkCollab 0 0) [])
  = (Raise (PyExc "OperationalError" "connection refused"),
     mkWorld (mkCollab 1 0)
       ([] ++ [EvInvoke; EvLog ERROR "Error invoking Bedrock: connection refused"])).
Proof.
  apply (schema_error_stops_before_the_model unreadable_schema mock_llm Medium "Python" None
           (PyExc "OperationalError" "connection refused") 1 (mkWorld (mkCollab 0 0) [])).
  - reflexivity.
  - reflexivity.
Defined.

Lemma throttled_schema_is_retried_witness :
  exists evs,
    generate_sql (fun d : nat => (Raise throttling_error, S d)) mock_llm (tier_key Low)
      "Python" None (mkWorld (mkCollab 0 0) [])
      = (Raise exhausted, mkWorld (mkCollab 5 0) ([] ++ evs))
    /\ invocations evs = 5
    /\ sleeps evs = [1; 2; 4; 8; 16]%Z.
Proof.
  apply (throttled_schema_is_retried (fun d : nat => (Raise throttling_error, S d)) mock_llm
           Low "Python" None (mkWorld (mkCollab 0 0) [])).
  intros d. reflexivity.
Defined.

Lemma generate_sql_rides_out_throttling_witness :
  exists evs,
    generate_sql (fun d : nat => (Ok mock_schema, S d)) (flaky_llm 2) (tier_key Low)
      "Python, Java, SQL" None (mkWorld (mkCollab 0 0) [])
      = (Ok mock_sql, mkWorld (mkCollab 3 3) ([] ++ evs))
    /\ invocations evs = 3
    /\ sleeps evs = [1; 2]%Z.
Proof.
  apply (generate_sql_rides_out_throttling (fun d : nat => (Ok mock_schema, S d)) (flaky_llm 2)
           Low "Python, Java, SQL" mock_schema mock_prompt mock_answer mock_sql None
           low_template 2 (mkWorld (mkCollab 0 0) [])).
  - reflexivity.
  - intros d. reflexivity.
  - vm_compute. reflexivity.
  - lia.
  - intros k Hk. destruct k as [|[|k]]; [reflexivity | reflexivity | lia].
  - reflexivity.
  - vm_compute. reflexivity.
Defined.

End DispatchMore.

(** ** The script block *)

Module MainMore.
Import PyStr Effects Invoker SqlChat Observe Scenarios.

Section Collaborators.
Context {DB LLM Rows : Type}.
Variable get_table_info : DB -> result string * DB.
Variable db_run : string -> DB -> result Rows * DB.
Variable llm_invoke : string -> LLM -> result string * LLM.
Variable str_rows : Rows -> string.


(** X22. When the low tier call fails, the script prints nothing, does not
    attempt the intermediate tier, and logs the error once. *)
Theorem main_stops_at_first_failure (e : exn) (w : World Process) (w1 : World Collab) :
  return_low_matched_jobs get_table_info db_run llm_invoke "Python, Java, SQL"
    (mkWorld (collab (ext w)) (trace w)) = (Raise e, w1) ->
  main get_table_info db_run llm_invoke str_rows w
  = (Ok tt,
     mkWorld (mkProcess (ext w1) (stdout (ext w)))
       (trace w1 ++ [EvLog ERROR ("Error during execution: " +:+ exn_str e)])).
Proof.
  intros Hlow. unfold main, main_body, bind, try_, on_collab. now rewrite Hlow.
Qed.

(** X23. When the low tier call returns rows, their line is printed before
    the intermediate tier is tried, with experience [2 Years]; then either
    the second line is printed, or the error of the intermediate call is
    logged and the first line stays printed. *)
Theorem main_prints_in_order (rows1 : Rows) (r2 : result Rows) (w : World Process)
    (w1 w2 : World Collab) :
  return_low_matched_jobs get_table_info db_run llm_invoke "Python, Java, SQL"
    (mkWorld (collab (ext w)) (trace w)) = (Ok rows1, w1) ->
  return_intermediate_matched_jobs get_table_info db_run llm_invoke "Python, Java, SQL"
    (Some "2 Years") w1 = (r2, w2) ->
  main get_table_info db_run llm_invoke str_rows w
  = (Ok tt,
     match r2 with
     | Ok rows2 =>
         mkWorld (mkProcess (ext w2)
                    (stdout (ext w)
                     ++ ["Low Matched Jobs: " +:+ str_rows rows1;
                         "Intermediate Matched Jobs: " +:+ str_rows rows2]))
           (trace w2)
     | Raise e =>
         mkWorld (mkProcess (ext w2) (stdout (ext w) ++ ["Low Matched Jobs: " +:+ str_rows rows1]))
           (trace w2 ++ [EvLog ERROR ("Error during execution: " +:+ exn_str e)])
     end).
Proof.
  intros Hlow Hint. unfold main, main_body, bind, try_, on_collab, print.
  rewrite Hlow. cbn [ext trace collab stdout].
  destruct w1 as [c1 t1]. cbn [ext trace] in *. rewrite Hint.
  destruct r2 as [rows2|e]; cbn [ext trace collab stdout]; [|reflexivity].
  now rewrite <- app_assoc.
Qed.

End Collaborators.

Lemma main_stops_at_first_failure_witness :
  main unreadable_schema mock_db_run mock_llm (fun rows : string => rows)
    (mkWorld (mkProcess (mkCollab 0 0) []) [])
  = (Ok tt,
     mkWorld (mkProcess (mkCollab 1 0) [])
       ([EvInvoke; EvLog ERROR "Error invoking Bedrock: connection refused"]
        ++ [EvLog ERROR "Error during execution: connection refused"])).
Proof.
  apply (main_stops_at_first_failure unreadable_schema mock_db_run mock_llm
           (fun rows : string => rows)
           (PyExc "OperationalError" "connection refused")
           (mkWorld (mkProcess (mkCollab 0 0) []) [])
           (mkWorld (mkCollab 1 0)
              [EvInvoke; EvLog ERROR "Error invoking Bedrock: connection refused"])).
  vm_compute. reflexivity.
Defined.

Lemma main_prints_in_order_witness :
  main mock_get_table_info mock_db_run mock_llm (fun rows : string => rows)
    (mkWorld (mkProcess (mkCollab 0 0) []) [])
  = (Ok tt,
     mkWorld (mkProcess (mkCollab 4 2)
                ([] ++ ["Low Matched Jobs: " +:+ mock_rows;
                        "Intermediate Matched Jobs: " +:+ mock_rows]))
       [EvInvoke; EvLog INFO ("Low matched query: " +:+ mock_sql); EvRun mock_sql;
        EvInvoke; EvLog INFO ("Intermediate matched query: " +:+ mock_sql); EvRun mock_sql]).
Proof.
  apply (main_prints_in_order mock_get_table_info mock_db_run mock_llm
           (fun rows : string => rows) mock_rows (Ok mock_rows)
           (mkWorld (mkProcess (mkCollab 0 0) []) [])
           (mkWorld (mkCollab 2 1)
              [EvInvoke; EvLog INFO ("Low matched query: " +:+ mock_sql); EvRun mock_sql])
           (mkWorld (mkCollab 4 2)
              [EvInvoke; EvLog INFO ("Low matched query: " +:+ mock_sql); EvRun mock_sql;
               EvInvoke; EvLog INFO ("Intermediate matched query: " +:+ mock_sql);
               EvRun mock_sql])).
  - vm_compute. reflexivity.
  - vm_compute. reflexivity.
Defined.

End MainMore.

(** ** The templates, tier by tier *)

Module TemplatesMore.
Import PyStr Effects SqlChat Observe.

(** X24. The template of every tier has the placeholder [{schema}] and
    does not contain the marker of the cleanup step; the placeholder
    [{experience}] is in the templates of intermediate and high and in no
    other, so that low and medium never need an experience. *)
Theorem templates_placeholders_by_tier (t : tier) :
  exists text,
    templates !! tier_key t = Some text
    /\ py_in "{schema}" text = true
    /\ py_in sql_marker text = false
    /\ py_in "{experience}" text
       = match t with Intermediate | High => true | Low | Medium => false end.
Proof.
  destruct t; eexists; (split; [reflexivity|]); repeat split; vm_compute; reflexivity.
Qed.

End TemplatesMore.
